(** * Velodent chat backend: the rules-based assistant of [main.py]

    A shallow embedding of the [/api/chat] handler ([chat] in [main.py]) and
    of the [Event] schema ([schemas.py]), followed by the properties of the
    intent classifier, of the reply builder and of the analytics events the
    handler hands to the persistence layer.

    Python values are modelled as the interpreter has them: a [str] is a
    sequence of Unicode code points, [None] is the [None] of an [option],
    a [dict] is an association list in insertion order, and a call that may
    raise returns an [outcome]. *)

From Stdlib Require Import List Bool NArith ZArith Lia String Ascii.
Import ListNotations.

Set Implicit Arguments.
Set Warnings "-register-all".
Local Open Scope N_scope.
Local Open Scope list_scope.
Local Open Scope bool_scope.

(* ================================================================== *)
(** * Python strings *)
(* ================================================================== *)

(** A Python [str]: its code points, in order. *)
Definition pystr : Type := list N.

(** Source literals are UTF-8 text; the interpreter decodes them to code
    points.  [utf8_decode] does that for the byte values of a literal. *)
Fixpoint utf8_decode (bs : list N) : pystr :=
  match bs with
  | [] => []
  | b0 :: r0 =>
      if b0 <? 0x80 then b0 :: utf8_decode r0
      else
        match r0 with
        | [] => [b0]
        | b1 :: r1 =>
            if b0 <? 0xE0 then
              N.lor (N.shiftl (N.land b0 0x1F) 6) (N.land b1 0x3F) :: utf8_decode r1
            else
              match r1 with
              | [] => [b0; b1]
              | b2 :: r2 =>
                  if b0 <? 0xF0 then
                    N.lor (N.shiftl (N.land b0 0x0F) 12)
                      (N.lor (N.shiftl (N.land b1 0x3F) 6) (N.land b2 0x3F))
                    :: utf8_decode r2
                  else
                    match r2 with
                    | [] => [b0; b1; b2]
                    | b3 :: r3 =>
                        N.lor (N.shiftl (N.land b0 0x07) 18)
                          (N.lor (N.shiftl (N.land b1 0x3F) 12)
                             (N.lor (N.shiftl (N.land b2 0x3F) 6) (N.land b3 0x3F)))
                        :: utf8_decode r3
                    end
              end
        end
  end.

(** [u "..."] is the Python string a source literal denotes. *)
Definition u (s : string) : pystr :=
  utf8_decode (map N_of_ascii (list_ascii_of_string s)).

Arguments u s : simpl never.

(** Equality of two strings, Python's [==] on [str]. *)
Fixpoint str_eqb (a b : pystr) : bool :=
  match a, b with
  | [], [] => true
  | x :: a', y :: b' => (x =? y) && str_eqb a' b'
  | _, _ => false
  end.

(** ** The interpreter's Unicode tables

    [str.strip] and [str.lower] consult the Unicode character database of
    the interpreter.  Its ASCII part is written out below; the part for
    the other code points is an interface, so that every result holds for
    whatever database the interpreter ships. *)
Class UnicodeData : Type := {
  (** white space among the code points from 128 on *)
  uc_isspace : N -> bool;
  (** full lower-case mapping of a code point from 128 on (one to three
      code points) *)
  uc_tolower_full : N -> list N;
  (** the Cased property, code points from 128 on *)
  uc_iscased : N -> bool;
  (** the Case_Ignorable property, code points other than ASCII letters *)
  uc_iscaseignorable : N -> bool
}.

Definition is_ascii_upper (c : N) : bool := (65 <=? c) && (c <=? 90).
Definition is_ascii_lower (c : N) : bool := (97 <=? c) && (c <=? 122).
Definition is_ascii_alpha (c : N) : bool := is_ascii_upper c || is_ascii_lower c.

(** ASCII white space: TAB, LF, VT, FF, CR, the separators FS, GS, RS, US
    and the space. *)
Definition ascii_isspace (c : N) : bool :=
  ((9 <=? c) && (c <=? 13)) || ((28 <=? c) && (c <=? 32)).

Definition ascii_tolower (c : N) : N :=
  if is_ascii_upper c then c + 32 else c.

Section PyStr.
Context {UD : UnicodeData}.

(** [str.isspace] on one code point. *)
Definition isspace (c : N) : bool :=
  if c <? 128 then ascii_isspace c else uc_isspace c.

Definition iscased (c : N) : bool :=
  if c <? 128 then is_ascii_alpha c else uc_iscased c.

Definition iscaseignorable (c : N) : bool :=
  if is_ascii_alpha c then false else uc_iscaseignorable c.

(** [s.lstrip()]: drop the leading white space. *)
Fixpoint lstrip (s : pystr) : pystr :=
  match s with
  | [] => []
  | c :: r => if isspace c then lstrip r else s
  end.

(** [s.rstrip()]: drop the trailing white space. *)
Definition rstrip (s : pystr) : pystr := rev (lstrip (rev s)).

(** [s.strip()]. *)
Definition strip (s : pystr) : pystr := rstrip (lstrip s).

(** The first code point of [s] that is not case-ignorable, if any. *)
Fixpoint skip_caseignorable (s : pystr) : option N :=
  match s with
  | [] => None
  | c :: r => if iscaseignorable c then skip_caseignorable r else Some c
  end.

(** The Final_Sigma context of a capital sigma: a cased letter before it
    (case-ignorable code points skipped), none after it.  [rev_before]
    is the text before the sigma, nearest code point first. *)
Definition final_sigma (rev_before after : pystr) : bool :=
  match skip_caseignorable rev_before with
  | None => false
  | Some c =>
      iscased c &&
      match skip_caseignorable after with
      | None => true
      | Some d => negb (iscased d)
      end
  end.

(** The lower-case mapping of the code point [c] in its context. *)
Definition lower_ucs4 (rev_before : pystr) (c : N) (after : pystr) : list N :=
  if c =? 0x3A3 then [if final_sigma rev_before after then 0x3C2 else 0x3C3]
  else if c <? 128 then [ascii_tolower c]
  else uc_tolower_full c.

Fixpoint do_lower (rev_before s : pystr) : pystr :=
  match s with
  | [] => []
  | c :: r => lower_ucs4 rev_before c r ++ do_lower (c :: rev_before) r
  end.

(** [s.lower()]. *)
Definition lower (s : pystr) : pystr := do_lower [] s.

(** [text.startswith(k)]. *)
Fixpoint startswith (k text : pystr) : bool :=
  match k, text with
  | [], _ => true
  | _ :: _, [] => false
  | a :: k', b :: text' => (a =? b) && startswith k' text'
  end.

(** [k in text] on strings: [k] occurs in [text] as a substring. *)
Fixpoint str_in (k text : pystr) : bool :=
  startswith k text ||
  match text with
  | [] => false
  | _ :: text' => str_in k text'
  end.

End PyStr.

(* ================================================================== *)
(** * Python objects and calls *)
(* ================================================================== *)

(** The values a JSON body or a document carries ([Any] in the type
    hints).  A [float] is its IEEE-754 binary64 bit pattern; a [dict] keeps
    its items in insertion order. *)
Inductive pyobj : Type :=
| PyNone
| PyBool (b : bool)
| PyInt (z : Z)
| PyFloat (bits : N)
| PyStr (s : pystr)
| PyList (items : list pyobj)
| PyDict (items : list (pystr * pyobj)).

(** [Dict[str, Any]]. *)
Definition pydict : Type := list (pystr * pyobj).

(** A raised exception, with its text: an instance of [Exception], or
    one of the exceptions that derive from [BaseException] only
    ([KeyboardInterrupt], [SystemExit], [GeneratorExit]), which
    [except Exception] does not catch. *)
Inductive exn : Type :=
| Exception (msg : pystr)
| BaseException (msg : pystr).

(** How a call ends: it returns a value or it raises. *)
Inductive outcome (A : Type) : Type :=
| Returns (a : A)
| Raises (e : exn).

Arguments Returns {A} a.
Arguments Raises {A} e.

(** [x or ""] for an optional string: [None] and the empty string are
    falsy, so both give the empty string. *)
Definition or_empty (x : option pystr) : pystr :=
  match x with
  | None => []
  | Some [] => []
  | Some s => s
  end.

(* ================================================================== *)
(** * schemas.py *)
(* ================================================================== *)

Module schemas.

(** [class Event(BaseModel)]: events emitted by the chat widget for
    analytics and auditing. *)
Record Event : Type := {
  event_type : pystr;
  source : pystr;
  page : option pystr;
  session_id : option pystr;
  payload : option pydict
}.

(** The constructor [Event(event_type=..., ...)].  Every field but
    [event_type] is a keyword that may be left out ([None] here), in
    which case the field's default applies: ["website"] for [source],
    [None] for [page] and [session_id], and a fresh empty [dict]
    ([default_factory=dict]) for [payload]. *)
Definition Event_init (kw_event_type : pystr) (kw_source : option pystr)
    (kw_page kw_session_id : option (option pystr))
    (kw_payload : option (option pydict)) : Event :=
  {| event_type := kw_event_type;
     source := match kw_source with Some s => s | None => u "website" end;
     page := match kw_page with Some p => p | None => None end;
     session_id := match kw_session_id with Some s => s | None => None end;
     payload := match kw_payload with Some p => p | None => Some [] end |}.

End schemas.

(* ================================================================== *)
(** * The collaborators of the handler *)
(* ================================================================== *)

(** What [chat] calls and does not define: [create_document] of the
    [database] module and the clock.  [World] is everything outside the
    handler (the document store, the connection, the time).  A write may
    change the world, and it returns an identifier or raises. *)
Class Collaborators (World : Type) : Type := {
  (** [database.create_document(collection_name, data)] *)
  db_create_document : pystr -> schemas.Event -> World -> outcome pyobj * World;
  (** [datetime.now(timezone.utc).isoformat()] *)
  utcnow_isoformat : World -> pystr
}.

(** One run of a piece of the handler: how it ended, the documents it
    handed to [create_document] (collection and record, in call order),
    and the world it left. *)
Record run (World A : Type) : Type := Run {
  result : outcome A;
  calls : list (pystr * schemas.Event);
  world : World
}.

Arguments Run {World A} result calls world.

(** A computation of the handler. *)
Definition M (World A : Type) : Type := World -> run World A.

Definition ret {World A : Type} (a : A) : M World A :=
  fun w => Run (Returns a) [] w.

(** Sequencing: an exception of the first part ends the whole. *)
Definition bind {World A B : Type} (m : M World A) (f : A -> M World B) : M World B :=
  fun w =>
    let r := m w in
    match result r with
    | Raises e => Run (Raises e) (calls r) (world r)
    | Returns a =>
        let r' := f a (world r) in
        Run (result r') (calls r ++ calls r') (world r')
    end.

Notation "x <- m ;; k" := (bind m (fun x => k))
  (at level 61, m at next level, right associativity).
Notation "m ;;; k" := (bind m (fun _ => k))
  (at level 61, right associativity).

(** The call [create_document(collection_name, data)]. *)
Definition create_document {World : Type} {C : Collaborators World}
    (collection_name : pystr) (data : schemas.Event) : M World pyobj :=
  fun w =>
    let (o, w') := db_create_document collection_name data w in
    Run o [(collection_name, data)] w'.

(** The call [datetime.now(timezone.utc).isoformat()]. *)
Definition utcnow {World : Type} {C : Collaborators World} : M World pystr :=
  fun w => Run (Returns (utcnow_isoformat w)) [] w.

(* ================================================================== *)
(** * main.py: the chat endpoint *)
(* ================================================================== *)

(** [class ChatRequest(BaseModel)].  [message] is read through
    [req.message or ""], so the value [None] is provided for. *)
Record ChatRequest : Type := {
  message : option pystr;
  session_id : option pystr;
  page : option pystr;
  consent : bool;
  user : option pydict
}.

(** One entry of ["quickReplies"]: a dict with the keys ["label"] and
    ["action"] and, for some entries, ["url"]. *)
Record QuickReply : Type := {
  label : pystr;
  action : pystr;
  url : option pystr
}.

(** The dict [chat] returns. *)
Record ChatReply : Type := {
  r_reply : pystr;
  r_intent : pystr;
  r_quickReplies : list QuickReply;
  r_timestamp : pystr
}.

(** The list literal of [reply], used when [quick] is falsy. *)
Definition default_quick_replies : list QuickReply :=
  [ {| label := u "Book Now"; action := u "book";
       url := Some (u "https://cal.com/velodent-ogbkfv/20min") |};
    {| label := u "Check Insurance"; action := u "insurance"; url := None |};
    {| label := u "Request Callback"; action := u "callback"; url := None |} ].

(** The [intents] dict, items in insertion order. *)
Definition intents : list (pystr * list pystr) :=
  [ (u "book", [u "book"; u "appointment"; u "schedule"; u "demo"]);
    (u "reschedule", [u "reschedule"; u "missed"; u "change"]);
    (u "cancel", [u "cancel"]);
    (u "braces", [u "braces"; u "tightening"; u "adjustment"]);
    (u "insurance", [u "insurance"; u "covered"; u "verify"]);
    (u "payment", [u "pay"; u "payment"; u "billing"]);
    (u "receptionist", [u "receptionist"; u "ai"; u "assistant"]);
    (u "callback", [u "call"; u "phone"; u "contact"]) ].

(** [any(k in text for k in kws)]. *)
Definition any_in (kws : list pystr) (text : pystr) : bool :=
  existsb (fun k => str_in k text) kws.

(** The loop [for intent, kws in items: if any(...): intent_detected =
    intent; break], started with the value [intent_detected]. *)
Fixpoint detect (items : list (pystr * list pystr)) (text : pystr)
    (intent_detected : pystr) : pystr :=
  match items with
  | [] => intent_detected
  | (intent, kws) :: rest =>
      if any_in kws text then intent else detect rest text intent_detected
  end.

Section Main.
Context {UD : UnicodeData}.

(** [text = (req.message or "").strip().lower()]. *)
Definition normalize (msg : option pystr) : pystr :=
  lower (strip (or_empty msg)).

(** The value of [intent_detected] after the loop. *)
Definition classify (msg : option pystr) : pystr :=
  detect intents (normalize msg) (u "general").

Context {World : Type} {C : Collaborators World}.

(** The inner function [reply(msg, intent="general", quick=None)]; a
    keyword left out is [None] here. *)
Definition reply (msg : pystr) (kw_intent : option pystr)
    (kw_quick : option (list QuickReply)) : M World ChatReply :=
  ts <- utcnow ;;
  ret {| r_reply := msg;
         r_intent := match kw_intent with Some i => i | None => u "general" end;
         r_quickReplies :=
           match kw_quick with
           | Some (q :: qs) => q :: qs
           | _ => default_quick_replies
           end;
         r_timestamp := ts |}.

(** [def chat(req: ChatRequest)]. *)
Definition chat (req : ChatRequest) : M World ChatReply :=
  let intent_detected := classify (message req) in
  if str_eqb intent_detected (u "book") then
    create_document (u "event")
      (schemas.Event_init (u "booking_requested") (Some (u "website"))
         (Some (page req)) (Some (session_id req)) None) ;;;
    reply (u "I can help you book a visit. Use Book Now to choose a time, or share your name, email, phone, and preferred times and I’ll arrange it.")
      (Some (u "booking")) None
  else if str_eqb intent_detected (u "reschedule") then
    reply (u "No problem. Please share your name and the original appointment date, plus new preferred times. I can also send a rescheduling link.")
      (Some (u "reschedule")) None
  else if str_eqb intent_detected (u "cancel") then
    reply (u "I can assist with cancellations. Please confirm your name and appointment date so I can notify the team.")
      (Some (u "cancel")) None
  else if str_eqb intent_detected (u "braces") then
    reply (u "For braces, we typically schedule tightening every 4–8 weeks depending on your plan. If you’re due, I can help you book a slot.")
      (Some (u "braces_guidance")) None
  else if str_eqb intent_detected (u "insurance") then
    create_document (u "event")
      (schemas.Event_init (u "insurance_check_requested") (Some (u "website"))
         (Some (page req)) (Some (session_id req)) None) ;;;
    reply (u "We verify insurance by collecting your provider and member ID, then confirming coverage. I can start that if you consent to share details.")
      (Some (u "insurance_info")) None
  else if str_eqb intent_detected (u "payment") then
    reply (u "You can pay at the clinic via card or contactless. For invoices or estimates, our team can assist—would you like a callback?")
      (Some (u "payment_info")) None
  else if str_eqb intent_detected (u "receptionist") then
    reply (u "Velodent’s AI receptionist answers FAQs, helps with bookings, and can log your details privately. You control what you share.")
      (Some (u "about_bot")) None
  else if str_eqb intent_detected (u "callback") then
    create_document (u "event")
      (schemas.Event_init (u "handoff_requested") (Some (u "website"))
         (Some (page req)) (Some (session_id req)) None) ;;;
    reply (u "Sure—share your phone number and a good time to reach you, and we’ll arrange a call.")
      (Some (u "callback")) None
  else
    reply (u "How can I help today? I can assist with bookings, insurance, braces schedules, or payments.")
      None None.

End Main.

(* ================================================================== *)
(** * Test doubles *)
(* ================================================================== *)

(** A Unicode database with nothing outside ASCII: no further white
    space, no further case mapping. *)
Definition ascii_only : UnicodeData :=
  {| uc_isspace := fun _ => false;
     uc_tolower_full := fun c => [c];
     uc_iscased := fun _ => false;
     uc_iscaseignorable := fun _ => false |}.

(** An in-memory document store: the world is the list of stored
    documents, a write appends to it and returns an identifier. *)
Definition memory_store : Type := list (pystr * schemas.Event).

Definition in_memory : Collaborators memory_store :=
  {| db_create_document := fun c d w => (Returns (PyStr (u "doc-1")), w ++ [(c, d)]);
     utcnow_isoformat := fun _ => u "2024-01-01T00:00:00+00:00" |}.

(** A store that is down: every write raises and stores nothing. *)
Definition store_down : Collaborators memory_store :=
  {| db_create_document := fun _ _ w => (Raises (Exception (u "Database not available")), w);
     utcnow_isoformat := fun _ => u "2024-01-01T00:00:00+00:00" |}.

(** A store whose write fails by returning [None], without raising. *)
Definition store_silent : Collaborators memory_store :=
  {| db_create_document := fun _ _ w => (Returns PyNone, w);
     utcnow_isoformat := fun _ => u "2024-01-01T00:00:00+00:00" |}.

(** A request that carries only a message. *)
Definition say (text : string) : ChatRequest :=
  {| message := Some (u text); session_id := None; page := None;
     consent := false; user := None |}.

(** A request that differs from [say "book"] in [consent] and [user]. *)
Definition say_book_with_user : ChatRequest :=
  {| message := Some (u "book"); session_id := None; page := None;
     consent := true;
     user := Some [(u "name", PyStr (u "Ann")); (u "phone", PyStr (u "555"))] |}.

(* ================================================================== *)
(** * Vocabulary of the statements *)
(* ================================================================== *)

(** [k] occurs in [text] as a substring. *)
Definition occurs (k text : pystr) : Prop :=
  exists before after, text = before ++ k ++ after.

(** A rule matches a text when one of its keywords occurs in it. *)
Definition rule_matches (kws : list pystr) (text : pystr) : Prop :=
  exists k, In k kws /\ occurs k text.

(** The intents of the classifier. *)
Definition intent_names : list pystr :=
  [u "book"; u "reschedule"; u "cancel"; u "braces"; u "insurance";
   u "payment"; u "receptionist"; u "callback"; u "general"].

(** The intents whose branch writes an event, with the event type. *)
Definition event_types : list (pystr * pystr) :=
  [ (u "book", u "booking_requested");
    (u "insurance", u "insurance_check_requested");
    (u "callback", u "handoff_requested") ].

(** The intents of [event_types]. *)
Definition writing_intents : list pystr := [u "book"; u "insurance"; u "callback"].

(** The value of the ["intent"] key of the reply, per classified intent. *)
Definition reply_intents : list (pystr * pystr) :=
  [ (u "book", u "booking");
    (u "reschedule", u "reschedule");
    (u "cancel", u "cancel");
    (u "braces", u "braces_guidance");
    (u "insurance", u "insurance_info");
    (u "payment", u "payment_info");
    (u "receptionist", u "about_bot");
    (u "callback", u "callback");
    (u "general", u "general") ].

(** Look-up in one of these tables. *)
Fixpoint assoc (k : pystr) (table : list (pystr * pystr)) : option pystr :=
  match table with
  | [] => None
  | (k', v) :: rest => if str_eqb k k' then Some v else assoc k rest
  end.

(** The event a branch writes for the request [req]: source ["website"],
    the page and the session of the request, an empty payload. *)
Definition event_of (type : pystr) (req : ChatRequest) : schemas.Event :=
  {| schemas.event_type := type;
     schemas.source := u "website";
     schemas.page := page req;
     schemas.session_id := session_id req;
     schemas.payload := Some [] |}.

(** The dict a branch returns: its text, its intent label, the default
    quick replies and the time stamp. *)
Definition reply_dict (text label ts : pystr) : ChatReply :=
  {| r_reply := text; r_intent := label;
     r_quickReplies := default_quick_replies; r_timestamp := ts |}.

(** A quick reply that has a non-empty ["url"]. *)
Definition has_url (q : QuickReply) : bool :=
  match url q with
  | Some (_ :: _) => true
  | _ => false
  end.

(** The server handling a sequence of requests, one after the other, each
    in the world the previous one left; a request that ends in an exception
    does not stop the server. *)
Fixpoint serve {UD : UnicodeData} {World : Type} {C : Collaborators World}
    (reqs : list ChatRequest) (w : World) : list (outcome ChatReply) :=
  match reqs with
  | [] => []
  | req :: rest => result (chat req w) :: serve rest (world (chat req w))
  end.

(** Two code points equal up to the case of an ASCII letter. *)
Definition same_letter (c d : N) : Prop := ascii_tolower c = ascii_tolower d.

(** Two strings equal up to the case of their ASCII letters. *)
Definition case_variant (a b : pystr) : Prop := Forall2 same_letter a b.

(** A string of white space only. *)
Definition all_space {UD : UnicodeData} (s : pystr) : Prop :=
  Forall (fun c => isspace c = true) s.




(** A string of ASCII lower-case letters (every keyword is one). *)
Definition lower_word (s : pystr) : Prop :=
  Forall (fun c => is_ascii_lower c = true) s.

(* ================================================================== *)
(** * schemas.py: the other models *)
(* ================================================================== *)

Module Lead.

(** [class Lead(BaseModel)]: leads captured from the chat widget or
    forms.  [email] has passed the [EmailStr] validation of the request. *)
Record t : Type := {
  name : pystr;
  email : option pystr;
  phone : option pystr;
  preferred_times : option pystr;
  intent : option pystr;
  source : pystr;
  page : option pystr;
  session_id : option pystr
}.

End Lead.

Module ChatMessage.

(** [class ChatMessage(BaseModel)]. *)
Record t : Type := {
  role : pystr;
  content : pystr;
  timestamp : option pystr
}.

End ChatMessage.

Module Transcript.

(** [class Transcript(BaseModel)]; [lead_email] is an [EmailStr]. *)
Record t : Type := {
  session_id : pystr;
  lead_email : option pystr;
  lead_phone : option pystr;
  lead_name : option pystr;
  page : option pystr;
  messages : list ChatMessage.t
}.

End Transcript.

(** The records [main.py] hands to [create_document]. *)
Inductive document : Type :=
| DocLead (d : Lead.t)
| DocEvent (d : schemas.Event)
| DocTranscript (d : Transcript.t).

(** [type(data).__name__]. *)
Definition class_name (d : document) : pystr :=
  match d with
  | DocLead _ => u "Lead"
  | DocEvent _ => u "Event"
  | DocTranscript _ => u "Transcript"
  end.

(* ================================================================== *)
(** * main.py: the request models of the other endpoints *)
(* ================================================================== *)

Module EventIn.

(** [class EventIn(BaseModel)]. *)
Record t : Type := {
  event_type : pystr;
  source : pystr;
  page : option pystr;
  session_id : option pystr;
  payload : option pydict
}.

End EventIn.

Module TranscriptIn.

(** [class TranscriptIn(BaseModel)]; here [lead_email] is a plain
    optional string. *)
Record t : Type := {
  session_id : pystr;
  page : option pystr;
  lead_name : option pystr;
  lead_email : option pystr;
  lead_phone : option pystr;
  messages : list ChatMessage.t
}.

End TranscriptIn.

(** [str(e)]: the text of an exception. *)
Definition exn_str (e : exn) : pystr :=
  match e with
  | Exception msg => msg
  | BaseException msg => msg
  end.

(** Truth value of an optional string: [None] and [""] are falsy. *)
Definition truthy (x : option pystr) : bool :=
  match x with
  | Some (_ :: _) => true
  | _ => false
  end.

(** A value that may be [None], as a Python object. *)
Definition PyOptStr (x : option pystr) : pyobj :=
  match x with
  | Some s => PyStr s
  | None => PyNone
  end.

(* ================================================================== *)
(** * The backend of the other endpoints *)
(* ================================================================== *)

(** What the endpoints of [main.py] call and do not define. *)
Class Backend (World : Type) : Type := {
  (** [database.create_document(collection_name, data)], for any record *)
  be_create_document : pystr -> document -> World -> outcome pyobj * World;
  (** [datetime.now(timezone.utc).isoformat()] *)
  be_utcnow_isoformat : World -> pystr;
  (** [db is not None] *)
  be_db_is_not_none : World -> bool;
  (** [os.getenv(name)] *)
  be_getenv : pystr -> World -> outcome (option pystr);
  (** [db.list_collection_names()] *)
  be_list_collection_names : World -> outcome (list pystr);
  (** the validation of an [EmailStr] field: the normalized address, or
      the validation error *)
  be_validate_email : pystr -> outcome pystr
}.

(** The collaborators of [chat], as a backend provides them. *)
Definition chat_collaborators {World : Type} (B : Backend World) : Collaborators World :=
  {| db_create_document := fun c ev w => be_create_document c (DocEvent ev) w;
     utcnow_isoformat := be_utcnow_isoformat |}.

(** One run of an endpoint: how it ended, the records it handed to
    [create_document] (collection and record, in call order), and the
    world it left. *)
Record exec (World A : Type) : Type := Exec {
  ended : outcome A;
  writes : list (pystr * document);
  left_world : World
}.

Arguments Exec {World A} ended writes left_world.

Definition E (World A : Type) : Type := World -> exec World A.

Definition e_ret {World A : Type} (a : A) : E World A :=
  fun w => Exec (Returns a) [] w.

Definition e_bind {World A B : Type} (m : E World A) (f : A -> E World B) : E World B :=
  fun w =>
    let r := m w in
    match ended r with
    | Raises e => Exec (Raises e) (writes r) (left_world r)
    | Returns a =>
        let r' := f a (left_world r) in
        Exec (ended r') (writes r ++ writes r') (left_world r')
    end.

Notation "x <~ m ;; k" := (e_bind m (fun x => k))
  (at level 61, m at next level, right associativity).

(** A step that only returns or raises. *)
Definition e_lift {World A : Type} (o : outcome A) : E World A :=
  fun w => Exec o [] w.

(** The call [create_document(collection_name, data)]. *)
Definition e_create_document {World : Type} {B : Backend World}
    (collection_name : pystr) (data : document) : E World pyobj :=
  fun w =>
    let (o, w') := be_create_document collection_name data w in
    Exec o [(collection_name, data)] w'.

(** A run of [chat] on a backend, as a run of an endpoint. *)
Definition exec_of_run {World A : Type} (r : run World A) : exec World A :=
  Exec (result r) (map (fun c => (fst c, DocEvent (snd c))) (calls r)) (world r).

(* ================================================================== *)
(** * main.py: the CRM webhooks and the transcripts *)
(* ================================================================== *)

(** The dict [{"ok": True, key: id}] the three endpoints return. *)
Record OkReply : Type := {
  ok : bool;
  id_key : pystr;
  id_value : pyobj
}.

(** The constructor call of [save_transcript], [Transcript] on the items
    of [t.model_dump()]: every field is given; [lead_email], when not
    [None], goes through the [EmailStr] validation. *)
Definition Transcript_init {World : Type} {B : Backend World}
    (t : TranscriptIn.t) : outcome Transcript.t :=
  match TranscriptIn.lead_email t with
  | None =>
      Returns {| Transcript.session_id := TranscriptIn.session_id t;
                 Transcript.lead_email := None;
                 Transcript.lead_phone := TranscriptIn.lead_phone t;
                 Transcript.lead_name := TranscriptIn.lead_name t;
                 Transcript.page := TranscriptIn.page t;
                 Transcript.messages := TranscriptIn.messages t |}
  | Some address =>
      match be_validate_email address with
      | Raises e => Raises e
      | Returns normalized =>
          Returns {| Transcript.session_id := TranscriptIn.session_id t;
                     Transcript.lead_email := Some normalized;
                     Transcript.lead_phone := TranscriptIn.lead_phone t;
                     Transcript.lead_name := TranscriptIn.lead_name t;
                     Transcript.page := TranscriptIn.page t;
                     Transcript.messages := TranscriptIn.messages t |}
      end
  end.

Section Webhooks.
Context {World : Type} {B : Backend World}.

(** [def create_lead(lead: Lead)]. *)
Definition create_lead (lead : Lead.t) : E World OkReply :=
  lead_id <~ e_create_document (u "lead") (DocLead lead) ;;
  let ev :=
    schemas.Event_init (u "lead_captured") (Some (Lead.source lead))
      (Some (Lead.page lead)) (Some (Lead.session_id lead))
      (Some (Some [(u "lead_id", lead_id);
                   (u "intent", PyOptStr (Lead.intent lead))])) in
  _ <~ e_create_document (u "event") (DocEvent ev) ;;
  e_ret {| ok := true; id_key := u "lead_id"; id_value := lead_id |}.

(** [def log_event(event: EventIn)]; [model_dump] lists all five fields,
    so all five keywords are given to [Event]. *)
Definition log_event (event : EventIn.t) : E World OkReply :=
  let ev :=
    schemas.Event_init (EventIn.event_type event) (Some (EventIn.source event))
      (Some (EventIn.page event)) (Some (EventIn.session_id event))
      (Some (EventIn.payload event)) in
  event_id <~ e_create_document (u "event") (DocEvent ev) ;;
  e_ret {| ok := true; id_key := u "event_id"; id_value := event_id |}.

(** [def save_transcript(t: TranscriptIn)]. *)
Definition save_transcript (t : TranscriptIn.t) : E World OkReply :=
  tr <~ e_lift (Transcript_init t) ;;
  transcript_id <~ e_create_document (u "transcript") (DocTranscript tr) ;;
  e_ret {| ok := true; id_key := u "transcript_id"; id_value := transcript_id |}.

End Webhooks.

(* ================================================================== *)
(** * main.py: the health check *)
(* ================================================================== *)

(** The dict [info] of [test_database]. *)
Record Info : Type := {
  backend : pystr;
  database : pystr;
  database_url : option pystr;
  database_name : option pystr;
  connection_status : pystr;
  collections : list pystr
}.

(** A block of statements that updates [info] in place: it returns or
    raises, and the updates made before a raise stay. *)
Definition S (A : Type) : Type := Info -> outcome A * Info.

Definition s_ret {A : Type} (a : A) : S A := fun info => (Returns a, info).

Definition s_bind {A B : Type} (m : S A) (f : A -> S B) : S B :=
  fun info =>
    match m info with
    | (Returns a, info') => f a info'
    | (Raises e, info') => (Raises e, info')
    end.

Notation "x <: m ;; k" := (s_bind m (fun x => k))
  (at level 61, m at next level, right associativity).

Definition s_lift {A : Type} (o : outcome A) : S A := fun info => (o, info).

(** [try: body except Exception as e: handler]: the handler runs for an
    [Exception]; any other exception goes on. *)
Definition s_try (body : S unit) (handler : exn -> S unit) : S unit :=
  fun info =>
    match body info with
    | (Returns a, info') => (Returns a, info')
    | (Raises (Exception msg), info') => handler (Exception msg) info'
    | (Raises (BaseException msg), info') => (Raises (BaseException msg), info')
    end.

Definition set_database (v : pystr) : S unit :=
  fun info =>
    (Returns tt,
     {| backend := backend info; database := v;
        database_url := database_url info; database_name := database_name info;
        connection_status := connection_status info;
        collections := collections info |}).

Definition set_database_url (v : option pystr) : S unit :=
  fun info =>
    (Returns tt,
     {| backend := backend info; database := database info;
        database_url := v; database_name := database_name info;
        connection_status := connection_status info;
        collections := collections info |}).

Definition set_database_name (v : option pystr) : S unit :=
  fun info =>
    (Returns tt,
     {| backend := backend info; database := database info;
        database_url := database_url info; database_name := v;
        connection_status := connection_status info;
        collections := collections info |}).

Definition set_connection_status (v : pystr) : S unit :=
  fun info =>
    (Returns tt,
     {| backend := backend info; database := database info;
        database_url := database_url info; database_name := database_name info;
        connection_status := v;
        collections := collections info |}).

Definition set_collections (v : list pystr) : S unit :=
  fun info =>
    (Returns tt,
     {| backend := backend info; database := database info;
        database_url := database_url info; database_name := database_name info;
        connection_status := connection_status info;
        collections := v |}).

Section Health.
Context {World : Type} {B : Backend World}.

(** The statements of [test_database] between [info = {...}] and
    [return info]. *)
Definition test_database_body (w : World) : S unit :=
  s_try
    (if be_db_is_not_none w then
       _ <: set_database (u "✅ Available") ;;
       url <: s_lift (be_getenv (u "DATABASE_URL") w) ;;
       _ <: set_database_url
              (Some (if truthy url then u "✅ Set" else u "❌ Not Set")) ;;
       name <: s_lift (be_getenv (u "DATABASE_NAME") w) ;;
       _ <: set_database_name
              (Some (if truthy name then u "✅ Set" else u "❌ Not Set")) ;;
       s_try
         (names <: s_lift (be_list_collection_names w) ;;
          _ <: set_collections (firstn 10 names) ;;
          _ <: set_database (u "✅ Connected & Working") ;;
          set_connection_status (u "Connected"))
         (fun e =>
            set_database (u "⚠️ Connected but Error: " ++ firstn 50 (exn_str e)))
     else
       set_database (u "⚠️ Database module not initialized"))
    (fun e => set_database (u "❌ Error: " ++ firstn 80 (exn_str e))).

(** [def test_database()]. *)
Definition test_database (w : World) : outcome Info :=
  fst ((_ <: test_database_body w ;;
        fun info => (Returns info, info))
         {| backend := u "✅ Running";
            database := u "❌ Not Available";
            database_url := None;
            database_name := None;
            connection_status := u "Not Connected";
            collections := [] |}).

End Health.

(** [test_database] over what the backend answers: the handle, the two
    environment look-ups and the listing. *)
Definition health_report (db : bool) (url name : outcome (option pystr))
    (listing : outcome (list pystr)) : outcome Info :=
  fst ((_ <: s_try
               (if db then
                  _ <: set_database (u "✅ Available") ;;
                  url <: s_lift url ;;
                  _ <: set_database_url
                         (Some (if truthy url then u "✅ Set" else u "❌ Not Set")) ;;
                  name <: s_lift name ;;
                  _ <: set_database_name
                         (Some (if truthy name then u "✅ Set" else u "❌ Not Set")) ;;
                  s_try
                    (names <: s_lift listing ;;
                     _ <: set_collections (firstn 10 names) ;;
                     _ <: set_database (u "✅ Connected & Working") ;;
                     set_connection_status (u "Connected"))
                    (fun e =>
                       set_database
                         (u "⚠️ Connected but Error: " ++ firstn 50 (exn_str e)))
                else
                  set_database (u "⚠️ Database module not initialized"))
               (fun e => set_database (u "❌ Error: " ++ firstn 80 (exn_str e))) ;;
        fun info => (Returns info, info))
         {| backend := u "✅ Running";
            database := u "❌ Not Available";
            database_url := None;
            database_name := None;
            connection_status := u "Not Connected";
            collections := [] |}).

(* ================================================================== *)
(** * More test doubles *)
(* ================================================================== *)

(** Twelve collection names. *)
Definition twelve_names : list pystr :=
  [u "c01"; u "c02"; u "c03"; u "c04"; u "c05"; u "c06";
   u "c07"; u "c08"; u "c09"; u "c10"; u "c11"; u "c12"].

(** The in-memory world keeps the events written to it. *)
Definition keep_event (c : pystr) (d : document) (w : memory_store) : memory_store :=
  match d with
  | DocEvent ev => w ++ [(c, ev)]
  | _ => w
  end.

(** A backend over the in-memory world: it keeps the events, is
    connected, has both variables set, lists twelve collections and
    accepts the addresses that have an at sign. *)
Definition backend_up : Backend memory_store :=
  {| be_create_document := fun c d w => (Returns (PyStr (u "doc-1")), keep_event c d w);
     be_utcnow_isoformat := fun _ => u "2024-01-01T00:00:00+00:00";
     be_db_is_not_none := fun _ => true;
     be_getenv := fun _ _ => Returns (Some (u "mongodb://localhost"));
     be_list_collection_names := fun _ => Returns twelve_names;
     be_validate_email :=
       fun a => if str_in (u "@") a then Returns a
                else Raises (Exception (u "value is not a valid email address")) |}.

(** A backend whose store accepts the first write of a world and refuses
    the next ones, and whose listing fails. *)
Definition backend_flaky : Backend memory_store :=
  {| be_create_document :=
       fun c d w =>
         match w with
         | [] => (Returns (PyStr (u "doc-1")), [(c, schemas.Event_init (u "stored") None None None None)])
         | _ => (Raises (Exception (u "write refused")), w)
         end;
     be_utcnow_isoformat := fun _ => u "2024-01-01T00:00:00+00:00";
     be_db_is_not_none := fun _ => true;
     be_getenv := fun _ _ => Returns None;
     be_list_collection_names := fun _ => Raises (Exception (u "connection refused by the server at this address, giving up after 30 seconds"));
     be_validate_email :=
       fun a => if str_in (u "@") a then Returns a
                else Raises (Exception (u "value is not a valid email address")) |}.

(** A backend whose listing is interrupted from the keyboard. *)
Definition backend_interrupted : Backend memory_store :=
  {| be_create_document := fun c d w => (Returns (PyStr (u "doc-1")), keep_event c d w);
     be_utcnow_isoformat := fun _ => u "2024-01-01T00:00:00+00:00";
     be_db_is_not_none := fun _ => true;
     be_getenv := fun _ _ => Returns (Some (u "mongodb://localhost"));
     be_list_collection_names := fun _ => Raises (BaseException (u "KeyboardInterrupt"));
     be_validate_email := fun a => Returns a |}.

Definition ann_lead : Lead.t :=
  {| Lead.name := u "Ann"; Lead.email := Some (u "ann@example.org");
     Lead.phone := None; Lead.preferred_times := None;
     Lead.intent := Some (u "booking"); Lead.source := u "website";
     Lead.page := Some (u "/pricing"); Lead.session_id := Some (u "s-1") |}.

Definition two_messages : list ChatMessage.t :=
  [ {| ChatMessage.role := u "user"; ChatMessage.content := u "hello";
       ChatMessage.timestamp := None |};
    {| ChatMessage.role := u "assistant"; ChatMessage.content := u "How can I help today?";
       ChatMessage.timestamp := None |} ].

Definition transcript_with_email (address : option pystr) : TranscriptIn.t :=
  {| TranscriptIn.session_id := u "s-1"; TranscriptIn.page := None;
     TranscriptIn.lead_name := None; TranscriptIn.lead_email := address;
     TranscriptIn.lead_phone := None; TranscriptIn.messages := two_messages |}.

(* ================================================================== *)
(** * Tactics *)
(* ================================================================== *)

(** Turns every comparison on code points in sight into a linear fact. *)
Ltac cmp_cases :=
  repeat match goal with
    | |- context [?a <=? ?b] => destruct (N.leb_spec a b)
    | |- context [?a <? ?b] => destruct (N.ltb_spec a b)
    | |- context [?a =? ?b] => destruct (N.eqb_spec a b)
    | H : context [?a <=? ?b] |- _ => destruct (N.leb_spec a b)
    | H : context [?a <? ?b] |- _ => destruct (N.ltb_spec a b)
    | H : context [?a =? ?b] |- _ => destruct (N.eqb_spec a b)
    end.

Ltac unfold_ascii :=
  unfold same_letter, ascii_tolower, is_ascii_alpha, is_ascii_upper,
    is_ascii_lower, ascii_isspace in *.

(** Decides the string comparisons between literals that are in sight. *)
Ltac decide_literals :=
  repeat match goal with
    | |- context [str_eqb (u ?a) (u ?b)] =>
        let v := eval vm_compute in (str_eqb (u a) (u b)) in
        change (str_eqb (u a) (u b)) with v
    end;
  cbv beta iota.

(** Closes a goal that has an equation between two different literals. *)
Ltac literal_clash :=
  match goal with
  | H : u ?a = u ?b |- _ => vm_compute in H; discriminate H
  | H : In (u ?a) _ |- _ =>
      vm_compute in H; repeat (destruct H as [H | H]; try discriminate H); contradiction
  end.

(** Proves that a literal is in a list of literals. *)
Ltac in_literals :=
  simpl In;
  repeat match goal with
    | |- ?a = ?b \/ _ => first [constr_eq a b; left; reflexivity | right]
    | |- ?a = ?b => constr_eq a b; reflexivity
    end.

(** Closes an equation between two occurrences of the same literal. *)
Ltac same_literal :=
  match goal with
  | |- u ?a = u ?b => constr_eq a b; reflexivity
  end.

(** Splits a health report along what the backend answered, and runs
    it. *)
Ltac health_cases :=
  match goal with
  | db : bool, url : outcome (option pystr), name : outcome (option pystr),
    listing : outcome (list pystr) |- _ =>
      destruct db; [destruct url as [url | [m1 | m1]];
                    [destruct name as [name | [m2 | m2]];
                     [destruct listing as [names | [m3 | m3]] | | ] | | ] | ]
  end;
  cbv [health_report s_try s_bind s_lift s_ret
         set_database set_database_url set_database_name set_connection_status
         set_collections exn_str
         fst snd backend database database_url database_name connection_status
         collections].

(* ================================================================== *)
(** * Lemmas on strings *)
(* ================================================================== *)

Lemma str_eqb_eq (a b : pystr) : str_eqb a b = true <-> a = b.
Proof.
  revert b; induction a as [|x a IH]; intros [|y b]; simpl;
    try (split; [discriminate | congruence]); [tauto|].
  rewrite andb_true_iff, N.eqb_eq, IH. split.
  - intros [-> ->]; reflexivity.
  - intros E; injection E; auto.
Qed.

Lemma startswith_iff (k text : pystr) :
  startswith k text = true <-> exists after, text = k ++ after.
Proof.
  revert text; induction k as [|a k IH]; intros text; simpl.
  - split; [intros _; exists text; reflexivity | reflexivity].
  - destruct text as [|b text].
    + split; [discriminate | intros [r E]; discriminate].
    + rewrite andb_true_iff, N.eqb_eq, IH. split.
      * intros [-> [r ->]]. exists r; reflexivity.
      * intros [r E]. injection E as -> ->. split; [reflexivity | exists r; reflexivity].
Qed.

Lemma occurs_nil_l (text : pystr) : occurs [] text.
Proof. exists [], text; reflexivity. Qed.

Lemma occurs_cons (k text : pystr) (c : N) :
  occurs k (c :: text) <-> (exists after, c :: text = k ++ after) \/ occurs k text.
Proof.
  split.
  - intros [[|x before] [after E]]; simpl in E.
    + left; exists after; exact E.
    + right. injection E as _ ->. exists before, after; reflexivity.
  - intros [[after E] | [before [after ->]]].
    + exists [], after; exact E.
    + exists (c :: before), after; reflexivity.
Qed.

(** [k in text] decides [occurs k text]. *)
Lemma str_in_iff (k text : pystr) : str_in k text = true <-> occurs k text.
Proof.
  induction text as [|c text IH]; simpl.
  - rewrite orb_false_r, startswith_iff. split.
    + intros [after E]. exists [], after; exact E.
    + intros [before [after E]]. destruct before; [exists after; exact E | discriminate].
  - rewrite orb_true_iff, startswith_iff, IH, occurs_cons. tauto.
Qed.

Lemma any_in_iff (kws : list pystr) (text : pystr) :
  any_in kws text = true <-> rule_matches kws text.
Proof.
  unfold any_in, rule_matches. rewrite existsb_exists.
  split; intros [k [Hin Hk]]; exists k; (split; [exact Hin|]); apply str_in_iff; exact Hk.
Qed.

Lemma any_in_false (kws : list pystr) (text : pystr) :
  any_in kws text = false <-> ~ rule_matches kws text.
Proof.
  rewrite <- any_in_iff. destruct (any_in kws text); split; congruence.
Qed.

Lemma occurs_rev (k text : pystr) : occurs k text -> occurs (rev k) (rev text).
Proof.
  intros [x [y ->]]. exists (rev y), (rev x).
  rewrite !rev_app_distr, <- app_assoc; reflexivity.
Qed.

(** The loop returns the intent of the first item whose keywords match,
    and its start value when none does. *)
Lemma detect_first (items : list (pystr * list pystr)) (text d : pystr) :
  (exists before intent kws after,
      items = before ++ (intent, kws) :: after /\
      rule_matches kws text /\
      (forall i' kws', In (i', kws') before -> ~ rule_matches kws' text) /\
      detect items text d = intent)
  \/ ((forall i kws, In (i, kws) items -> ~ rule_matches kws text) /\
      detect items text d = d).
Proof.
  induction items as [|[i kws] rest IH]; simpl.
  - right. split; [intros ? ? [] | reflexivity].
  - destruct (any_in kws text) eqn:E.
    + left. exists [], i, kws, rest. repeat split.
      * apply any_in_iff; exact E.
      * intros ? ? [].
    + apply any_in_false in E.
      destruct IH as [(before & j & kj & after & -> & Hm & Hb & Hd) | [Hn Hd]].
      * left. exists ((i, kws) :: before), j, kj, after. repeat split; auto.
        intros i' kws' [H | H]; [injection H as <- <-; exact E | eapply Hb; exact H].
      * right. split; [|exact Hd].
        intros i' kws' [H | H]; [injection H as <- <-; exact E | eapply Hn; exact H].
Qed.

Lemma detect_in (items : list (pystr * list pystr)) (text d : pystr) :
  In (detect items text d) (map fst items ++ [d]).
Proof.
  induction items as [|[i kws] rest IH]; simpl.
  - left; reflexivity.
  - destruct (any_in kws text); [left; reflexivity | right; exact IH].
Qed.

Section Normalization.
Context {UD : UnicodeData}.

Lemma same_letter_cases (c d : N) :
  same_letter c d ->
  c = d \/ (is_ascii_alpha c = true /\ is_ascii_alpha d = true).
Proof.
  unfold_ascii. intros H. cmp_cases; simpl in *; auto; lia.
Qed.

Lemma alpha_not_space (c : N) : is_ascii_alpha c = true -> isspace c = false.
Proof.
  unfold isspace. unfold_ascii. intros H. cmp_cases; simpl in *; auto; try lia; discriminate.
Qed.

Lemma alpha_below_128 (c : N) : is_ascii_alpha c = true -> (c <? 128) = true.
Proof.
  unfold_ascii. intros H. cmp_cases; simpl in *; auto; try lia; discriminate.
Qed.

Lemma alpha_not_sigma (c : N) : is_ascii_alpha c = true -> (c =? 0x3A3) = false.
Proof.
  unfold_ascii. intros H. cmp_cases; simpl in *; auto; try lia; discriminate.
Qed.

Lemma same_letter_isspace (c d : N) : same_letter c d -> isspace c = isspace d.
Proof.
  intros H. destruct (same_letter_cases H) as [-> | [Hc Hd]]; [reflexivity|].
  rewrite (alpha_not_space _ Hc), (alpha_not_space _ Hd); reflexivity.
Qed.

Lemma same_letter_iscased (c d : N) : same_letter c d -> iscased c = iscased d.
Proof.
  intros H. destruct (same_letter_cases H) as [-> | [Hc Hd]]; [reflexivity|].
  unfold iscased. rewrite (alpha_below_128 _ Hc), (alpha_below_128 _ Hd), Hc, Hd.
  reflexivity.
Qed.

Lemma same_letter_iscaseignorable (c d : N) :
  same_letter c d -> iscaseignorable c = iscaseignorable d.
Proof.
  intros H. destruct (same_letter_cases H) as [-> | [Hc Hd]]; [reflexivity|].
  unfold iscaseignorable. rewrite Hc, Hd. reflexivity.
Qed.

Lemma case_variant_rev (a b : pystr) : case_variant a b -> case_variant (rev a) (rev b).
Proof.
  induction 1; simpl; [constructor|].
  apply Forall2_app; [assumption | constructor; [assumption | constructor]].
Qed.

(** ** [strip] *)

Lemma lstrip_all_space (ws : pystr) : all_space ws -> lstrip ws = [].
Proof. induction 1 as [|c ws Hc _ IH]; simpl; [|rewrite Hc]; auto. Qed.

Lemma lstrip_app_space (ws s : pystr) : all_space ws -> lstrip (ws ++ s) = lstrip s.
Proof. induction 1 as [|c ws Hc _ IH]; simpl; [|rewrite Hc]; auto. Qed.

Lemma lstrip_app (s t : pystr) :
  lstrip (s ++ t) = match lstrip s with [] => lstrip t | _ :: _ => lstrip s ++ t end.
Proof.
  induction s as [|c s IH]; simpl; [destruct (lstrip t); reflexivity|].
  destruct (isspace c); [exact IH | reflexivity].
Qed.

Lemma all_space_rev (ws : pystr) : all_space ws -> all_space (rev ws).
Proof. apply Forall_rev. Qed.

Lemma rstrip_app_space (s ws : pystr) : all_space ws -> rstrip (s ++ ws) = rstrip s.
Proof.
  intros H. unfold rstrip. rewrite rev_app_distr, lstrip_app_space; auto using all_space_rev.
Qed.

(** White space around a string does not survive [strip]. *)
Lemma strip_pad (ws1 s ws2 : pystr) :
  all_space ws1 -> all_space ws2 -> strip (ws1 ++ s ++ ws2) = strip s.
Proof.
  intros H1 H2. unfold strip. rewrite lstrip_app_space by assumption.
  rewrite lstrip_app. destruct (lstrip s) eqn:E.
  - rewrite lstrip_all_space by assumption. reflexivity.
  - apply rstrip_app_space; assumption.
Qed.

Lemma case_variant_lstrip (a b : pystr) :
  case_variant a b -> case_variant (lstrip a) (lstrip b).
Proof.
  induction 1 as [|c d a b Hcd Hab IH]; simpl; [constructor|].
  rewrite (same_letter_isspace Hcd). destruct (isspace d); [exact IH|].
  constructor; assumption.
Qed.

Lemma case_variant_strip (a b : pystr) :
  case_variant a b -> case_variant (strip a) (strip b).
Proof.
  intros H. unfold strip, rstrip.
  auto using case_variant_rev, case_variant_lstrip.
Qed.

(** ** [lower] *)

Lemma skip_caseignorable_variant (a b : pystr) :
  case_variant a b ->
  match skip_caseignorable a, skip_caseignorable b with
  | Some c, Some d => same_letter c d
  | None, None => True
  | _, _ => False
  end.
Proof.
  induction 1 as [|c d a b Hcd Hab IH]; simpl; [exact I|].
  rewrite (same_letter_iscaseignorable Hcd).
  destruct (iscaseignorable d); [exact IH | exact Hcd].
Qed.

Lemma final_sigma_variant (ra rb a b : pystr) :
  case_variant ra rb -> case_variant a b -> final_sigma ra a = final_sigma rb b.
Proof.
  intros Hr Ha. unfold final_sigma.
  pose proof (skip_caseignorable_variant Hr) as H1.
  pose proof (skip_caseignorable_variant Ha) as H2.
  destruct (skip_caseignorable ra), (skip_caseignorable rb); try contradiction; auto.
  rewrite (same_letter_iscased H1).
  destruct (skip_caseignorable a), (skip_caseignorable b); try contradiction; auto.
  rewrite (same_letter_iscased H2). reflexivity.
Qed.

Lemma lower_ucs4_variant (ra rb a b : pystr) (c d : N) :
  case_variant ra rb -> same_letter c d -> case_variant a b ->
  lower_ucs4 ra c a = lower_ucs4 rb d b.
Proof.
  intros Hr Hcd Ha. unfold lower_ucs4.
  destruct (same_letter_cases Hcd) as [<- | [Hc Hd]].
  - rewrite (final_sigma_variant Hr Ha). reflexivity.
  - rewrite (alpha_not_sigma _ Hc), (alpha_not_sigma _ Hd),
      (alpha_below_128 _ Hc), (alpha_below_128 _ Hd).
    f_equal. exact Hcd.
Qed.

Lemma do_lower_variant (a b : pystr) :
  case_variant a b -> forall ra rb, case_variant ra rb -> do_lower ra a = do_lower rb b.
Proof.
  induction 1 as [|c d a b Hcd Hab IH]; intros ra rb Hr; simpl; [reflexivity|].
  rewrite (lower_ucs4_variant Hr Hcd Hab). f_equal.
  apply IH. constructor; assumption.
Qed.

(** The case of ASCII letters does not survive [lower]. *)
Lemma lower_variant (a b : pystr) : case_variant a b -> lower a = lower b.
Proof. intros H. apply do_lower_variant; [exact H | constructor]. Qed.

Lemma do_lower_app (a b ra : pystr) :
  exists x, do_lower ra (a ++ b) = x ++ do_lower (rev a ++ ra) b.
Proof.
  revert ra; induction a as [|c a IH]; intros ra; simpl.
  - exists []; reflexivity.
  - destruct (IH (c :: ra)) as [x ->].
    exists (lower_ucs4 ra c (a ++ b) ++ x).
    rewrite <- !app_assoc. simpl. reflexivity.
Qed.

Lemma lower_is_alpha (c : N) : is_ascii_lower c = true -> is_ascii_alpha c = true.
Proof. unfold is_ascii_alpha. intros ->. apply orb_true_r. Qed.

Lemma lower_ucs4_lower (ra a : pystr) (c : N) :
  is_ascii_lower c = true -> lower_ucs4 ra c a = [c].
Proof.
  intros H. unfold lower_ucs4.
  rewrite (alpha_not_sigma _ (lower_is_alpha _ H)), (alpha_below_128 _ (lower_is_alpha _ H)).
  f_equal. revert H. unfold_ascii. intros H. cmp_cases; simpl in *; auto; try lia; discriminate.
Qed.

Lemma do_lower_word (k b ra : pystr) :
  lower_word k -> do_lower ra (k ++ b) = k ++ do_lower (rev k ++ ra) b.
Proof.
  intros H. revert ra. induction H as [|c k Hc _ IH]; intros ra; simpl; [reflexivity|].
  rewrite (lower_ucs4_lower _ _ _ Hc), IH. simpl. rewrite <- app_assoc. reflexivity.
Qed.

(** A lower-case word of a string is still there after [lower]. *)
Lemma occurs_lower (k s : pystr) : lower_word k -> occurs k s -> occurs k (lower s).
Proof.
  intros Hk [a [b ->]]. unfold lower.
  destruct (do_lower_app a (k ++ b) []) as [x ->].
  rewrite do_lower_word by assumption.
  exists x, (do_lower (rev k ++ rev a ++ []) b). reflexivity.
Qed.

Lemma occurs_lstrip (k s : pystr) : lower_word k -> occurs k s -> occurs k (lstrip s).
Proof.
  intros Hk [a [b ->]]. rewrite lstrip_app.
  destruct (lstrip a) as [|x l].
  - destruct Hk as [|c k Hc Hk]; [apply occurs_nil_l|].
    simpl. rewrite (alpha_not_space _ (lower_is_alpha _ Hc)).
    exists [], b. reflexivity.
  - exists (x :: l), b. reflexivity.
Qed.

Lemma occurs_rstrip (k s : pystr) : lower_word k -> occurs k s -> occurs k (rstrip s).
Proof.
  intros Hk Ho. unfold rstrip.
  rewrite <- (rev_involutive k). apply occurs_rev, occurs_lstrip.
  - apply Forall_rev; exact Hk.
  - apply occurs_rev; exact Ho.
Qed.

(** A lower-case word of the message is a word of the text the
    classifier scans. *)
Lemma occurs_normalize (k m : pystr) :
  lower_word k -> occurs k m -> occurs k (normalize (Some m)).
Proof.
  intros Hk Ho. unfold normalize, strip.
  apply occurs_lower, occurs_rstrip, occurs_lstrip; auto.
  destruct m; exact Ho.
Qed.

End Normalization.

(* ================================================================== *)
(** * Lemmas on the handler *)
(* ================================================================== *)

Section Handler.
Context {UD : UnicodeData} {World : Type} {C : Collaborators World}.

Lemma classify_in (msg : option pystr) : In (classify msg) intent_names.
Proof. exact (detect_in intents (normalize msg) (u "general")). Qed.

Lemma assoc_in (k v : pystr) (table : list (pystr * pystr)) :
  assoc k table = Some v -> In (k, v) table.
Proof.
  induction table as [|[k' v'] rest IH]; simpl; [discriminate|].
  destruct (str_eqb k k') eqn:E.
  - apply str_eqb_eq in E. intros [= ->]. left; congruence.
  - intros H; right; auto.
Qed.

(** Every branch of [chat] is a reply with the default quick replies,
    after one write for the intents of [event_types].  The text and the
    label depend on the message only. *)
Lemma chat_shape (msg : option pystr) :
  exists text label,
    assoc (classify msg) reply_intents = Some label /\
    forall req, message req = msg ->
      chat req =
        match assoc (classify msg) event_types with
        | Some type =>
            create_document (u "event") (event_of type req) ;;;
            reply text (Some label) None
        | None => reply text (Some label) None
        end.
Proof.
  pose proof (classify_in msg) as H.
  unfold intent_names, reply_intents, event_types, assoc.
  simpl In in H.
  repeat (destruct H as [H | H]; [| try contradiction]);
    rewrite <- H; decide_literals;
    do 2 eexists; (split; [reflexivity|]);
    intros req E; unfold chat; rewrite E, <- H; decide_literals; reflexivity.
Qed.

(** The same, run from a world [w]. *)
Lemma chat_run (msg : option pystr) :
  exists text label,
    assoc (classify msg) reply_intents = Some label /\
    forall req w, message req = msg ->
      chat req w =
        match assoc (classify msg) event_types with
        | Some type =>
            let ow := db_create_document (u "event") (event_of type req) w in
            Run
              match fst ow with
              | Returns _ => Returns (reply_dict text label (utcnow_isoformat (snd ow)))
              | Raises e => Raises e
              end
              [(u "event", event_of type req)] (snd ow)
        | None => Run (Returns (reply_dict text label (utcnow_isoformat w))) [] w
        end.
Proof.
  destruct (chat_shape msg) as (text & label & Hl & Hc).
  exists text, label. split; [exact Hl|].
  intros req w E. rewrite (Hc req E).
  destruct (assoc (classify msg) event_types) as [type|]; [|reflexivity].
  unfold bind, create_document, reply, utcnow, ret, reply_dict.
  destruct (db_create_document (u "event") (event_of type req) w) as [[id|e] w'];
    reflexivity.
Qed.

End Handler.

(* ================================================================== *)
(** * The intent classifier *)
(* ================================================================== *)

Section Classifier.
Context {UD : UnicodeData}.

Lemma normalize_some (m : pystr) : normalize (Some m) = lower (strip m).
Proof. destruct m; reflexivity. Qed.

Lemma classify_general (msg : option pystr) :
  (forall i kws, In (i, kws) intents -> ~ rule_matches kws (normalize msg)) ->
  classify msg = u "general".
Proof.
  intros Hn. unfold classify.
  destruct (detect_first intents (normalize msg) (u "general"))
    as [(before & i & kws & after & E & Hm & _ & _) | [_ Hd]]; [|exact Hd].
  exfalso. apply (Hn i kws); [|exact Hm].
  rewrite E. apply in_or_app. right; left; reflexivity.
Qed.

(** When the rules before the [n]-th one do not match and that one
    does, the classifier returns its intent. *)
Lemma classify_nth (msg : option pystr) (n : nat) (i : pystr) (kws : list pystr) :
  nth_error intents n = Some (i, kws) ->
  (forall i' kws', In (i', kws') (firstn n intents) ->
                   ~ rule_matches kws' (normalize msg)) ->
  rule_matches kws (normalize msg) ->
  classify msg = i.
Proof.
  unfold classify. generalize intents (u "general").
  intros items d. revert items.
  induction n as [|n IH]; intros [|[j kj] rest]; simpl; try discriminate.
  - intros [= -> ->] _ Hm. apply any_in_iff in Hm. rewrite Hm. reflexivity.
  - intros Hnth Hb Hm.
    assert (E : any_in kj (normalize msg) = false).
    { apply any_in_false. apply (Hb j). left; reflexivity. }
    rewrite E. apply IH; auto.
    intros i' kws' Hin. apply (Hb i'). right; exact Hin.
Qed.









End Classifier.

(* ================================================================== *)
(** * The events of the handler *)
(* ================================================================== *)

Section Events.
Context {UD : UnicodeData} {World : Type} {C : Collaborators World}.

(** The event type of a classified intent. *)
Lemma event_type_cases (msg : option pystr) :
  (classify msg = u "book" /\
   assoc (classify msg) event_types = Some (u "booking_requested"))
  \/ (classify msg = u "insurance" /\
      assoc (classify msg) event_types = Some (u "insurance_check_requested"))
  \/ (classify msg = u "callback" /\
      assoc (classify msg) event_types = Some (u "handoff_requested"))
  \/ (~ In (classify msg) writing_intents /\
      assoc (classify msg) event_types = None).
Proof.
  pose proof (classify_in msg) as H. unfold intent_names in H. simpl In in H.
  repeat (destruct H as [H | H]; [| try contradiction]); rewrite <- H;
    first [ left; split; [same_literal | reflexivity]
          | right; left; split; [same_literal | reflexivity]
          | right; right; left; split; [same_literal | reflexivity]
          | right; right; right; split; [intros Hin; literal_clash | reflexivity] ].
Qed.

(** The documents [chat] hands to [create_document]. *)
Lemma chat_calls (req : ChatRequest) (w : World) :
  calls (chat req w) =
    match assoc (classify (message req)) event_types with
    | Some type => [(u "event", event_of type req)]
    | None => []
    end.
Proof.
  destruct (chat_run (message req)) as (text & label & _ & Hrun).
  rewrite (Hrun req w eq_refl).
  destruct (assoc (classify (message req)) event_types); reflexivity.
Qed.

(** C2.  [chat] hands an Event to the persistence layer exactly when the
    classified intent is book, insurance or callback: one event, of type
    ["booking_requested"], ["insurance_check_requested"] or
    ["handoff_requested"] respectively, with source ["website"] and the
    page and session id of the request; for every other intent, general
    included, it hands over nothing. *)
Theorem chat_event_emission (req : ChatRequest) (w : World) :
  (classify (message req) = u "book" ->
     calls (chat req w) =
       [(u "event",
         {| schemas.event_type := u "booking_requested";
            schemas.source := u "website";
            schemas.page := page req;
            schemas.session_id := session_id req;
            schemas.payload := Some [] |})])
  /\ (classify (message req) = u "insurance" ->
        calls (chat req w) =
          [(u "event",
            {| schemas.event_type := u "insurance_check_requested";
               schemas.source := u "website";
               schemas.page := page req;
               schemas.session_id := session_id req;
               schemas.payload := Some [] |})])
  /\ (classify (message req) = u "callback" ->
        calls (chat req w) =
          [(u "event",
            {| schemas.event_type := u "handoff_requested";
               schemas.source := u "website";
               schemas.page := page req;
               schemas.session_id := session_id req;
               schemas.payload := Some [] |})])
  /\ (~ In (classify (message req)) [u "book"; u "insurance"; u "callback"] ->
        calls (chat req w) = [])
  /\ (calls (chat req w) <> [] <->
        In (classify (message req)) [u "book"; u "insurance"; u "callback"]).
Proof.
  rewrite chat_calls.
  destruct (event_type_cases (message req)) as [[E A] | [[E A] | [[E A] | [E A]]]];
    rewrite A; unfold writing_intents in *.
  1-3: rewrite E; repeat split; intros;
    first [ literal_clash
          | reflexivity
          | discriminate
          | solve [in_literals]
          | exfalso; match goal with H : ~ In _ _ |- _ => apply H; in_literals end ].
  repeat split; intros;
    first [ reflexivity
          | contradiction
          | exfalso; apply E; assumption
          | exfalso; apply E;
            match goal with H : classify _ = _ |- _ => rewrite H; in_literals end ].
Qed.

End Events.

(* ================================================================== *)
(** * The reply of the handler *)
(* ================================================================== *)

Section Replies.
Context {UD : UnicodeData} {World : Type} {C : Collaborators World}.

(** A returned reply is the dict of its branch. *)
Lemma chat_returns (req : ChatRequest) (w : World) (r : ChatReply) :
  result (chat req w) = Returns r ->
  exists text label ts,
    assoc (classify (message req)) reply_intents = Some label /\
    r = reply_dict text label ts.
Proof.
  destruct (chat_run (message req)) as (text & label & Hl & Hrun).
  rewrite (Hrun req w eq_refl). intros H.
  exists text, label.
  destruct (assoc (classify (message req)) event_types) as [type|]; simpl in H.
  - destruct (fst (db_create_document (u "event") (event_of type req) w));
      [|discriminate].
    injection H as <-. eexists; split; [exact Hl | reflexivity].
  - injection H as <-. eexists; split; [exact Hl | reflexivity].
Qed.

(** C3, as the code has it.  The classified intent is one of book,
    reschedule, cancel, braces, insurance, payment, receptionist,
    callback, general; the ["intent"] of the returned reply is the label
    of that intent's branch: booking for book, braces_guidance for
    braces, insurance_info for insurance, payment_info for payment,
    about_bot for receptionist, and the intent's own name for
    reschedule, cancel, callback and general. *)
Theorem reply_intent_label (req : ChatRequest) (w : World) (r : ChatReply) :
  result (chat req w) = Returns r ->
  In (classify (message req))
    [u "book"; u "reschedule"; u "cancel"; u "braces"; u "insurance";
     u "payment"; u "receptionist"; u "callback"; u "general"]
  /\ In (classify (message req), r_intent r)
       [ (u "book", u "booking");
         (u "reschedule", u "reschedule");
         (u "cancel", u "cancel");
         (u "braces", u "braces_guidance");
         (u "insurance", u "insurance_info");
         (u "payment", u "payment_info");
         (u "receptionist", u "about_bot");
         (u "callback", u "callback");
         (u "general", u "general") ].
Proof.
  intros H. split; [exact (classify_in (message req))|].
  destruct (chat_returns _ _ H) as (text & label & ts & Hl & ->).
  exact (assoc_in _ _ Hl).
Qed.

(** C5, as the code has it.  For a request whose intent triggers a
    write, the outcome of the write decides: when [create_document]
    returns, whatever it returns, the reply of the branch is returned,
    built after the write and independent of the returned value; when it
    raises, the exception leaves [chat] and no reply is returned. *)
Theorem write_outcome_decides_reply (req : ChatRequest) (w : World) :
  In (classify (message req)) [u "book"; u "insurance"; u "callback"] ->
  exists type text label,
    In (classify (message req), type) event_types /\
    (forall e,
        fst (db_create_document (u "event") (event_of type req) w) = Raises e ->
        result (chat req w) = Raises e) /\
    (forall id,
        fst (db_create_document (u "event") (event_of type req) w) = Returns id ->
        result (chat req w) =
          Returns (reply_dict text label
                     (utcnow_isoformat
                        (snd (db_create_document (u "event") (event_of type req) w))))).
Proof.
  intros Hin.
  destruct (chat_run (message req)) as (text & label & _ & Hrun).
  rewrite (Hrun req w eq_refl).
  destruct (assoc (classify (message req)) event_types) as [type|] eqn:A.
  - exists type, text, label. split; [exact (assoc_in _ _ A)|].
    split; intros x Hx; simpl; rewrite Hx; reflexivity.
  - exfalso.
    destruct (event_type_cases (message req)) as [[_ B] | [[_ B] | [[_ B] | [E _]]]];
      try congruence.
    apply E. exact Hin.
Qed.

(** C6.  Whatever the request and its intent, the returned reply carries
    the default quick replies: Book Now (action book, with the booking
    URL), Check Insurance (action insurance), Request Callback (action
    callback), in this order.  Every entry has a non-empty label and
    action, and the book entry is the only one with a non-empty URL. *)
Theorem quick_replies_default (req : ChatRequest) (w : World) (r : ChatReply) :
  result (chat req w) = Returns r ->
  r_quickReplies r =
    [ {| label := u "Book Now"; action := u "book";
         url := Some (u "https://cal.com/velodent-ogbkfv/20min") |};
      {| label := u "Check Insurance"; action := u "insurance"; url := None |};
      {| label := u "Request Callback"; action := u "callback"; url := None |} ]
  /\ Forall (fun q => label q <> [] /\ action q <> []) (r_quickReplies r)
  /\ filter has_url (r_quickReplies r) =
       [ {| label := u "Book Now"; action := u "book";
            url := Some (u "https://cal.com/velodent-ogbkfv/20min") |} ].
Proof.
  intros H. destruct (chat_returns _ _ H) as (text & label & ts & _ & ->).
  split; [reflexivity|]. split; [|vm_compute; reflexivity].
  unfold reply_dict, default_quick_replies, r_quickReplies.
  repeat (apply Forall_cons;
          [split; intros E; vm_compute in E; discriminate E|]).
  apply Forall_nil.
Qed.

(** C10.  Every event [chat] hands over is built by the constructor
    without a payload argument, and the constructor then fills in the
    empty dict: the payload of the event is empty, so neither the text of
    the message nor the user's details are in it. *)
Theorem chat_event_payload_empty (req : ChatRequest) (w : World)
    (collection : pystr) (ev : schemas.Event) :
  In (collection, ev) (calls (chat req w)) ->
  schemas.payload ev = Some []
  /\ In (schemas.event_type ev)
       [u "booking_requested"; u "insurance_check_requested"; u "handoff_requested"]
  /\ ev = schemas.Event_init (schemas.event_type ev) (Some (u "website"))
            (Some (page req)) (Some (session_id req)) None
  /\ (forall type source page session_id,
        schemas.payload (schemas.Event_init type source page session_id None) = Some []).
Proof.
  rewrite chat_calls. intros Hin.
  assert (P : forall type source page session_id,
             schemas.payload (schemas.Event_init type source page session_id None)
             = Some []) by reflexivity.
  destruct (event_type_cases (message req)) as [[_ A] | [[_ A] | [[_ A] | [_ A]]]];
    rewrite A in Hin; [ | | | destruct Hin];
    (destruct Hin as [Hin | []]; injection Hin as <- <-;
     split; [reflexivity | split; [in_literals | split; [|exact P]]];
     cbv [event_of schemas.Event_init schemas.event_type]; reflexivity).
Qed.

End Replies.

(* ================================================================== *)
(** * Substring matching and normalization *)
(* ================================================================== *)

Section Matching.
Context {UD : UnicodeData} {World : Type} {C : Collaborators World}.

Lemma lower_word_forallb (k : pystr) : forallb is_ascii_lower k = true -> lower_word k.
Proof.
  intros H. apply Forall_forall. intros c Hc.
  exact (proj1 (forallb_forall _ _) H c Hc).
Qed.

Lemma occurs_trans (a b text : pystr) : occurs a b -> occurs b text -> occurs a text.
Proof.
  intros [x [y ->]] [p [q ->]]. exists (p ++ x), (y ++ q).
  rewrite <- !app_assoc. reflexivity.
Qed.

(** A lower-case word of the message, or of its normalized text, is in
    the text the classifier scans. *)
Lemma occurs_scanned (k m : pystr) :
  forallb is_ascii_lower k = true ->
  occurs k m \/ occurs k (normalize (Some m)) ->
  occurs k (normalize (Some m)).
Proof.
  intros Hk [H | H]; [|exact H].
  apply occurs_normalize; [apply lower_word_forallb; exact Hk | exact H].
Qed.

(** C4, as the code has it.  Matching is by substring, not by word: a
    message that contains "recall", and that no rule before callback
    matches, classifies as callback through the keyword "call"; a
    message that contains "daily", and that no rule before receptionist
    matches, classifies as receptionist through the keyword "ai".  The
    word "display" has no "ai" in it: the message "display" classifies
    as general.  The message "recall me please" classifies as callback
    and one ["handoff_requested"] event is handed over. *)
Theorem substring_matching :
  (forall m : pystr,
      occurs (u "recall") m \/ occurs (u "recall") (normalize (Some m)) ->
      (forall i kws, In (i, kws) intents ->
         In i [u "book"; u "reschedule"; u "cancel"; u "braces"; u "insurance";
               u "payment"; u "receptionist"] ->
         ~ rule_matches kws (normalize (Some m))) ->
      occurs (u "call") (normalize (Some m)) /\ classify (Some m) = u "callback")
  /\ (forall m : pystr,
        occurs (u "daily") m \/ occurs (u "daily") (normalize (Some m)) ->
        (forall i kws, In (i, kws) intents ->
           In i [u "book"; u "reschedule"; u "cancel"; u "braces"; u "insurance";
                 u "payment"] ->
           ~ rule_matches kws (normalize (Some m))) ->
        occurs (u "ai") (normalize (Some m)) /\ classify (Some m) = u "receptionist")
  /\ (~ occurs (u "ai") (u "display") /\ classify (Some (u "display")) = u "general")
  /\ (forall (req : ChatRequest) (w : World),
        message req = Some (u "recall me please") ->
        classify (message req) = u "callback" /\
        calls (chat req w) =
          [(u "event",
            {| schemas.event_type := u "handoff_requested";
               schemas.source := u "website";
               schemas.page := page req;
               schemas.session_id := session_id req;
               schemas.payload := Some [] |})]).
Proof.
  split; [|split; [|split]].
  - intros m Hm Hearlier.
    assert (Ho : occurs (u "call") (normalize (Some m))).
    { apply occurs_trans with (b := u "recall").
      - exists (u "re"), []. vm_compute. reflexivity.
      - apply occurs_scanned; [vm_compute; reflexivity | exact Hm]. }
    split; [exact Ho|].
    apply classify_nth with (n := 7%nat) (kws := [u "call"; u "phone"; u "contact"]).
    + reflexivity.
    + intros i' kws' Hin. cbv [intents firstn] in Hin. simpl In in Hin.
      repeat (destruct Hin as [Hin | Hin]; [| try contradiction]);
        (apply (Hearlier i' kws');
         [ rewrite <- Hin; cbv [intents]; in_literals
         | injection Hin as <- _; in_literals ]).
    + exists (u "call"). split; [left; reflexivity | exact Ho].
  - intros m Hm Hearlier.
    assert (Ho : occurs (u "ai") (normalize (Some m))).
    { apply occurs_trans with (b := u "daily").
      - exists (u "d"), (u "ly"). vm_compute. reflexivity.
      - apply occurs_scanned; [vm_compute; reflexivity | exact Hm]. }
    split; [exact Ho|].
    apply classify_nth with (n := 6%nat)
                            (kws := [u "receptionist"; u "ai"; u "assistant"]).
    + reflexivity.
    + intros i' kws' Hin. cbv [intents firstn] in Hin. simpl In in Hin.
      repeat (destruct Hin as [Hin | Hin]; [| try contradiction]);
        (apply (Hearlier i' kws');
         [ rewrite <- Hin; cbv [intents]; in_literals
         | injection Hin as <- _; in_literals ]).
    + exists (u "ai"). split; [right; left; reflexivity | exact Ho].
  - split; [|vm_compute; reflexivity].
    intros H. apply str_in_iff in H. vm_compute in H. discriminate H.
  - intros req w E.
    assert (Hc : classify (message req) = u "callback")
      by (rewrite E; vm_compute; reflexivity).
    split; [exact Hc|].
    destruct (event_type_cases (message req)) as [[E' A] | [[E' A] | [[E' A] | [E' A]]]];
      rewrite chat_calls, A;
      first [ reflexivity
            | rewrite Hc in E'; literal_clash
            | exfalso; apply E'; rewrite Hc; unfold writing_intents; in_literals ].
Qed.

(** C7.  The classifier strips and lower-cases the message first, so
    white space around the message and the case of its ASCII letters do
    not change the classified intent; a message that is [None] is
    classified as the empty string is. *)
Theorem classify_normalization_invariant (core core' ws1 ws2 ws3 ws4 : pystr) :
  all_space ws1 -> all_space ws2 -> all_space ws3 -> all_space ws4 ->
  case_variant core core' ->
  normalize (Some (ws1 ++ core ++ ws2)) = normalize (Some (ws3 ++ core' ++ ws4))
  /\ classify (Some (ws1 ++ core ++ ws2)) = classify (Some (ws3 ++ core' ++ ws4))
  /\ normalize None = normalize (Some (u ""))
  /\ classify None = classify (Some (u "")).
Proof.
  intros H1 H2 H3 H4 Hv.
  assert (E : normalize (Some (ws1 ++ core ++ ws2))
              = normalize (Some (ws3 ++ core' ++ ws4))).
  { rewrite !normalize_some, !strip_pad by assumption.
    apply lower_variant, case_variant_strip, Hv. }
  split; [exact E|]. split; [unfold classify; rewrite E; reflexivity|].
  split; reflexivity.
Qed.

End Matching.

(* ================================================================== *)
(** * What the result depends on *)
(* ================================================================== *)

Section Dependence.
Context {UD : UnicodeData} {World : Type} {C : Collaborators World}.

(** The [i]-th outcome of a session is the outcome of [chat] on the
    [i]-th request, in some world. *)
Lemma serve_nth (reqs : list ChatRequest) :
  forall (w : World) (i : nat) (o : outcome ChatReply),
    nth_error (serve reqs w) i = Some o ->
    exists req w', nth_error reqs i = Some req /\ o = result (chat req w').
Proof.
  induction reqs as [|req rest IH]; intros w [|i] o; simpl; try discriminate.
  - intros [= <-]. exists req, w. split; reflexivity.
  - apply IH.
Qed.

(** The label of a returned reply is a function of the message. *)
Lemma reply_intent_of_message (req : ChatRequest) (w : World) (r : ChatReply) :
  result (chat req w) = Returns r ->
  assoc (classify (message req)) reply_intents = Some (r_intent r).
Proof.
  intros H. destruct (chat_returns _ _ H) as (text & label & ts & Hl & ->).
  exact Hl.
Qed.

(** C8.  Classification keeps no state: take any two sessions of the
    server, started in any worlds and made of any requests; two requests
    with the same message, wherever they stand in the sessions, are
    answered with the same intent, the one of the message. *)
Theorem classify_stateless (reqs1 reqs2 : list ChatRequest) (w1 w2 : World)
    (i j : nat) (req1 req2 : ChatRequest) (r1 r2 : ChatReply) :
  nth_error reqs1 i = Some req1 ->
  nth_error reqs2 j = Some req2 ->
  message req1 = message req2 ->
  nth_error (serve reqs1 w1) i = Some (Returns r1) ->
  nth_error (serve reqs2 w2) j = Some (Returns r2) ->
  r_intent r1 = r_intent r2
  /\ In (classify (message req1), r_intent r1) reply_intents.
Proof.
  intros N1 N2 Em S1 S2.
  destruct (serve_nth _ _ _ S1) as (q1 & v1 & Q1 & O1).
  destruct (serve_nth _ _ _ S2) as (q2 & v2 & Q2 & O2).
  rewrite N1 in Q1. rewrite N2 in Q2.
  injection Q1 as <-. injection Q2 as <-.
  pose proof (reply_intent_of_message _ _ (eq_sym O1)) as L1.
  pose proof (reply_intent_of_message _ _ (eq_sym O2)) as L2.
  split.
  - rewrite Em in L1. congruence.
  - exact (assoc_in _ _ L1).
Qed.

(** C9.  [chat] reads the message, the page and the session id of the
    request and nothing else: two requests that agree on these three are
    classified alike and run alike, whatever their [consent] and [user];
    in any two worlds they hand over the same events, and the replies
    they return have the same intent, text and quick replies. *)
Theorem consent_and_user_unused (req1 req2 : ChatRequest) :
  message req1 = message req2 ->
  page req1 = page req2 ->
  session_id req1 = session_id req2 ->
  classify (message req1) = classify (message req2)
  /\ (forall w : World, chat req1 w = chat req2 w)
  /\ (forall w1 w2 : World, calls (chat req1 w1) = calls (chat req2 w2))
  /\ (forall (w1 w2 : World) (r1 r2 : ChatReply),
        result (chat req1 w1) = Returns r1 ->
        result (chat req2 w2) = Returns r2 ->
        r_intent r1 = r_intent r2 /\
        r_reply r1 = r_reply r2 /\
        r_quickReplies r1 = r_quickReplies r2).
Proof.
  intros Em Ep Es.
  assert (Ev : forall type, event_of type req1 = event_of type req2).
  { intros type. unfold event_of. rewrite Ep, Es. reflexivity. }
  destruct (chat_run (message req1)) as (text & label & _ & Hrun).
  split; [rewrite Em; reflexivity|]. split; [|split].
  - intros w. rewrite (Hrun req1 w eq_refl), (Hrun req2 w (eq_sym Em)).
    destruct (assoc (classify (message req1)) event_types); [|reflexivity].
    rewrite Ev. reflexivity.
  - intros w1 w2. rewrite !chat_calls, <- Em.
    destruct (assoc (classify (message req1)) event_types); [|reflexivity].
    rewrite Ev. reflexivity.
  - intros w1 w2 r1 r2.
    rewrite (Hrun req1 w1 eq_refl), (Hrun req2 w2 (eq_sym Em)).
    destruct (assoc (classify (message req1)) event_types) as [type|]; cbn [result].
    + cbv zeta.
      destruct (fst (db_create_document (u "event") (event_of type req1) w1));
        [|discriminate].
      destruct (fst (db_create_document (u "event") (event_of type req2) w2));
        [|discriminate].
      intros [= <-] [= <-]. repeat split.
    + intros [= <-] [= <-]. repeat split.
Qed.

End Dependence.

(* ================================================================== *)
(** * The theorems at concrete requests *)
(* ================================================================== *)

(** C3: the message "book" is classified as book, and the reply that
    comes back has the intent ["booking"], which is neither the classified
    intent nor a member of the set of intents. *)
Lemma booking_label_counterexample :
  exists r : ChatReply,
    result (chat (UD := ascii_only) (C := in_memory) (say "book") []) = Returns r
    /\ classify (UD := ascii_only) (message (say "book")) = u "book"
    /\ r_intent r = u "booking"
    /\ r_intent r <> classify (UD := ascii_only) (message (say "book"))
    /\ ~ In (r_intent r)
           [u "book"; u "reschedule"; u "cancel"; u "braces"; u "insurance";
            u "payment"; u "receptionist"; u "callback"; u "general"].
Proof.
  eexists. split; [vm_compute; reflexivity|].
  split; [vm_compute; reflexivity|].
  split; [vm_compute; reflexivity|].
  split.
  - intros H. vm_compute in H. discriminate H.
  - intros H. vm_compute in H.
    repeat (destruct H as [H | H]; [discriminate H|]). exact H.
Qed.

Lemma reply_intent_label_witness :
  exists r : ChatReply,
    result (chat (UD := ascii_only) (C := in_memory) (say "book") []) = Returns r
    /\ In (classify (UD := ascii_only) (message (say "book")), r_intent r) reply_intents.
Proof.
  assert (H : exists r, result (chat (UD := ascii_only) (C := in_memory) (say "book") [])
                        = Returns r)
    by (eexists; vm_compute; reflexivity).
  destruct H as [r H]. exists r. split; [exact H|].
  exact (proj2 (@reply_intent_label ascii_only memory_store in_memory (say "book") [] r H)).
Defined.

(** C4: the message "display" contains no keyword at all, "ai" included,
    and classifies as general, not as receptionist. *)
Lemma display_counterexample :
  occurs (u "display") (u "display")
  /\ (forall i kws, In (i, kws) intents ->
        ~ rule_matches kws (normalize (UD := ascii_only) (Some (u "display"))))
  /\ classify (UD := ascii_only) (Some (u "display")) = u "general"
  /\ classify (UD := ascii_only) (Some (u "display")) <> u "receptionist".
Proof.
  split; [exists [], []; vm_compute; reflexivity|].
  split; [|split].
  - intros i kws Hin. cbv [intents] in Hin. simpl In in Hin.
    repeat (destruct Hin as [Hin | Hin]; [| try contradiction]);
      injection Hin as _ <-; apply any_in_false; vm_compute; reflexivity.
  - vm_compute. reflexivity.
  - intros H. vm_compute in H. discriminate H.
Qed.

Lemma substring_matching_witness :
  occurs (u "recall") (u "recall me please")
  /\ classify (UD := ascii_only) (Some (u "recall me please")) = u "callback".
Proof.
  split; [exists [], (u " me please"); vm_compute; reflexivity|].
  refine (proj2 (proj1 (@substring_matching ascii_only memory_store in_memory)
                   (u "recall me please") _ _)).
  - left. exists [], (u " me please"). vm_compute. reflexivity.
  - intros i kws Hin Hearly. cbv [intents] in Hin. simpl In in Hin.
    repeat (destruct Hin as [Hin | Hin]; [| try contradiction]);
      injection Hin as <- <-;
      first [ apply any_in_false; vm_compute; reflexivity
            | exfalso; literal_clash ].
Defined.

(** C5: with the store down, the write of the booking event raises, and
    so does [chat]: no reply comes back. *)
Lemma write_failure_counterexample :
  In (classify (UD := ascii_only) (message (say "book")))
     [u "book"; u "insurance"; u "callback"]
  /\ fst (db_create_document (Collaborators := store_down) (u "event")
            (event_of (u "booking_requested") (say "book")) [])
     = Raises (Exception (u "Database not available"))
  /\ result (chat (UD := ascii_only) (C := store_down) (say "book") [])
     = Raises (Exception (u "Database not available"))
  /\ (forall r : ChatReply,
        result (chat (UD := ascii_only) (C := store_down) (say "book") []) <> Returns r).
Proof.
  split; [left; vm_compute; reflexivity|].
  split; [reflexivity|].
  assert (E : result (chat (UD := ascii_only) (C := store_down) (say "book") [])
              = Raises (Exception (u "Database not available")))
    by (vm_compute; reflexivity).
  split; [exact E|]. intros r H. rewrite E in H. discriminate H.
Qed.

Lemma write_outcome_decides_reply_witness :
  In (classify (UD := ascii_only) (message (say "book")))
     [u "book"; u "insurance"; u "callback"]
  /\ (exists r : ChatReply,
        result (chat (UD := ascii_only) (C := store_silent) (say "book") []) = Returns r)
  /\ (exists e : exn,
        result (chat (UD := ascii_only) (C := store_down) (say "book") []) = Raises e).
Proof.
  assert (Hin : In (classify (UD := ascii_only) (message (say "book")))
                   [u "book"; u "insurance"; u "callback"])
    by (left; vm_compute; reflexivity).
  split; [exact Hin|]. split.
  - destruct (@write_outcome_decides_reply ascii_only memory_store store_silent
                (say "book") [] Hin) as (type & text & label & _ & _ & Hret).
    eexists. apply (Hret PyNone). reflexivity.
  - destruct (@write_outcome_decides_reply ascii_only memory_store store_down
                (say "book") [] Hin) as (type & text & label & _ & Hraise & _).
    eexists. apply Hraise. reflexivity.
Defined.

Lemma quick_replies_default_witness :
  exists r : ChatReply,
    result (chat (UD := ascii_only) (C := in_memory) (say "hello") []) = Returns r
    /\ r_quickReplies r = default_quick_replies
    /\ List.length (r_quickReplies r) = 3%nat.
Proof.
  assert (H : exists r, result (chat (UD := ascii_only) (C := in_memory) (say "hello") [])
                        = Returns r)
    by (eexists; vm_compute; reflexivity).
  destruct H as [r H]. exists r. split; [exact H|].
  destruct (@quick_replies_default ascii_only memory_store in_memory (say "hello") [] r H)
    as [E _].
  split; [exact E | rewrite E; reflexivity].
Defined.

Lemma classify_normalization_invariant_witness :
  all_space (UD := ascii_only) (u "  ")
  /\ all_space (UD := ascii_only) (u "")
  /\ case_variant (u "Book now") (u "bOOK NOW")
  /\ classify (UD := ascii_only) (Some (u "  " ++ u "Book now" ++ u ""))
     = classify (UD := ascii_only) (Some (u "" ++ u "bOOK NOW" ++ u "  ")).
Proof.
  assert (S2 : all_space (UD := ascii_only) (u "  "))
    by (repeat (constructor; [vm_compute; reflexivity|]); constructor).
  assert (S0 : all_space (UD := ascii_only) (u "")) by constructor.
  assert (V : case_variant (u "Book now") (u "bOOK NOW"))
    by (repeat (constructor; [vm_compute; reflexivity|]); constructor).
  split; [exact S2|]. split; [exact S0|]. split; [exact V|].
  exact (proj1 (proj2 (@classify_normalization_invariant ascii_only
                         (u "Book now") (u "bOOK NOW") (u "  ") (u "") (u "") (u "  ")
                         S2 S0 S0 S2 V))).
Defined.

Lemma classify_stateless_witness :
  exists r1 r2 : ChatReply,
    nth_error (serve (UD := ascii_only) (C := in_memory)
                 [say "book"; say "hello"; say_book_with_user] []) 0
    = Some (Returns r1)
    /\ nth_error (serve (UD := ascii_only) (C := in_memory)
                    [say "cancel"; say "call me"; say "book"] []) 2
       = Some (Returns r2)
    /\ r_intent r1 = r_intent r2.
Proof.
  assert (H1 : exists r1,
             nth_error (serve (UD := ascii_only) (C := in_memory)
                          [say "book"; say "hello"; say_book_with_user] []) 0
             = Some (Returns r1))
    by (eexists; vm_compute; reflexivity).
  assert (H2 : exists r2,
             nth_error (serve (UD := ascii_only) (C := in_memory)
                          [say "cancel"; say "call me"; say "book"] []) 2
             = Some (Returns r2))
    by (eexists; vm_compute; reflexivity).
  destruct H1 as [r1 H1]. destruct H2 as [r2 H2].
  exists r1, r2. split; [exact H1|]. split; [exact H2|].
  exact (proj1 (@classify_stateless ascii_only memory_store in_memory
                  [say "book"; say "hello"; say_book_with_user]
                  [say "cancel"; say "call me"; say "book"] [] []
                  0 2 (say "book") (say "book") r1 r2
                  eq_refl eq_refl eq_refl H1 H2)).
Defined.

Lemma consent_and_user_unused_witness :
  message (say "book") = message say_book_with_user
  /\ consent (say "book") <> consent say_book_with_user
  /\ user (say "book") <> user say_book_with_user
  /\ forall w : memory_store,
       chat (UD := ascii_only) (C := in_memory) (say "book") w
       = chat (UD := ascii_only) (C := in_memory) say_book_with_user w.
Proof.
  split; [reflexivity|]. split; [discriminate|]. split; [discriminate|].
  exact (proj1 (proj2 (@consent_and_user_unused ascii_only memory_store in_memory
                         (say "book") say_book_with_user eq_refl eq_refl eq_refl))).
Defined.

Lemma chat_event_payload_empty_witness :
  In (u "event", event_of (u "booking_requested") say_book_with_user)
     (calls (chat (UD := ascii_only) (C := in_memory) say_book_with_user []))
  /\ schemas.payload (event_of (u "booking_requested") say_book_with_user) = Some [].
Proof.
  assert (H : In (u "event", event_of (u "booking_requested") say_book_with_user)
                (calls (chat (UD := ascii_only) (C := in_memory) say_book_with_user [])))
    by (left; vm_compute; reflexivity).
  split; [exact H|].
  exact (proj1 (@chat_event_payload_empty ascii_only memory_store in_memory
                  say_book_with_user [] _ _ H)).
Defined.


Lemma chat_event_emission_witness :
  classify (UD := ascii_only) (message (say "is this covered by my insurance"))
  = u "insurance"
  /\ calls (chat (UD := ascii_only) (C := in_memory)
              (say "is this covered by my insurance") [])
     = [(u "event",
         event_of (u "insurance_check_requested") (say "is this covered by my insurance"))].
Proof.
  assert (H : classify (UD := ascii_only)
                (message (say "is this covered by my insurance")) = u "insurance")
    by (vm_compute; reflexivity).
  split; [exact H|].
  exact (proj1 (proj2 (@chat_event_emission ascii_only memory_store in_memory
                         (say "is this covered by my insurance") [])) H).
Defined.

(* ================================================================== *)
(** * The CRM webhooks and the transcripts *)
(* ================================================================== *)

Section WebhookProperties.
Context {UD : UnicodeData} {World : Type} {B : Backend World}.

(** The event [create_lead] builds once the lead is stored under [lead_id]. *)
Lemma create_lead_run (lead : Lead.t) (w : World) :
  create_lead lead w =
    let first := be_create_document (u "lead") (DocLead lead) w in
    match fst first with
    | Raises e => Exec (Raises e) [(u "lead", DocLead lead)] (snd first)
    | Returns lead_id =>
        let ev :=
          DocEvent
            {| schemas.event_type := u "lead_captured";
               schemas.source := Lead.source lead;
               schemas.page := Lead.page lead;
               schemas.session_id := Lead.session_id lead;
               schemas.payload :=
                 Some [(u "lead_id", lead_id);
                       (u "intent", PyOptStr (Lead.intent lead))] |} in
        let second := be_create_document (u "event") ev (snd first) in
        Exec
          match fst second with
          | Raises e => Raises e
          | Returns _ =>
              Returns {| ok := true; id_key := u "lead_id"; id_value := lead_id |}
          end
          [(u "lead", DocLead lead); (u "event", ev)] (snd second)
    end.
Proof.
  unfold create_lead, e_bind, e_create_document, e_ret.
  cbv [schemas.Event_init]. cbv zeta.
  destruct (be_create_document (u "lead") (DocLead lead) w) as [[lead_id | e] w1];
    cbn [ended writes left_world fst snd]; [|reflexivity].
  destruct (be_create_document _ _ w1) as [[event_id | e] w2];
    cbn [ended writes left_world fst snd app]; reflexivity.
Qed.

(** X1.  [create_lead] stores the lead first and the event second, with
    no rollback: when the lead write raises, the exception leaves the
    endpoint and no event is written; when the lead write returns and the
    event write raises, the exception leaves the endpoint although the
    lead has been handed over, and the world is the one both writes
    left. *)
Theorem create_lead_partial_failure (lead : Lead.t) (w : World) :
  (forall e w1,
      be_create_document (u "lead") (DocLead lead) w = (Raises e, w1) ->
      create_lead lead w = Exec (Raises e) [(u "lead", DocLead lead)] w1)
  /\ (forall lead_id w1 e w2 ev,
        be_create_document (u "lead") (DocLead lead) w = (Returns lead_id, w1) ->
        ev = DocEvent
               {| schemas.event_type := u "lead_captured";
                  schemas.source := Lead.source lead;
                  schemas.page := Lead.page lead;
                  schemas.session_id := Lead.session_id lead;
                  schemas.payload :=
                    Some [(u "lead_id", lead_id);
                          (u "intent", PyOptStr (Lead.intent lead))] |} ->
        be_create_document (u "event") ev w1 = (Raises e, w2) ->
        create_lead lead w
        = Exec (Raises e) [(u "lead", DocLead lead); (u "event", ev)] w2).
Proof.
  split.
  - intros e w1 H. rewrite create_lead_run. cbv zeta. rewrite H. reflexivity.
  - intros lead_id w1 e w2 ev H1 -> H2. rewrite create_lead_run. cbv zeta.
    rewrite H1. cbn [fst snd]. rewrite H2. reflexivity.
Qed.

(** X2.  When [create_lead] returns, it has written the lead to ["lead"]
    and then one ["lead_captured"] event to ["event"]; the event carries
    the source, page and session id of the lead, and its payload holds the
    identifier the lead write returned and the intent of the lead ([None]
    when the lead has none); the answer is [ok] with that same
    identifier. *)
Theorem create_lead_success (lead : Lead.t) (w : World) (answer : OkReply) :
  ended (create_lead lead w) = Returns answer ->
  exists lead_id,
    fst (be_create_document (u "lead") (DocLead lead) w) = Returns lead_id
    /\ answer = {| ok := true; id_key := u "lead_id"; id_value := lead_id |}
    /\ writes (create_lead lead w) =
         [(u "lead", DocLead lead);
          (u "event",
           DocEvent
             {| schemas.event_type := u "lead_captured";
                schemas.source := Lead.source lead;
                schemas.page := Lead.page lead;
                schemas.session_id := Lead.session_id lead;
                schemas.payload :=
                  Some [(u "lead_id", lead_id);
                        (u "intent",
                         match Lead.intent lead with
                         | Some i => PyStr i
                         | None => PyNone
                         end)] |})].
Proof.
  rewrite create_lead_run. cbv zeta.
  destruct (be_create_document (u "lead") (DocLead lead) w) as [[lead_id | e] w1];
    cbn [fst snd ended]; [|discriminate].
  destruct (be_create_document (u "event") _ w1) as [[event_id | e] w2];
    cbn [fst snd ended writes]; [|discriminate].
  intros [= <-]. exists lead_id. repeat split.
Qed.

(** X3.  [log_event] hands over exactly one event, to ["event"], with the
    five fields of the request as they came: a payload that is [None]
    stays [None] (the empty-dict default applies only when the keyword is
    left out, as in [chat]).  It answers with the identifier of the write,
    or raises what the write raises. *)
Theorem log_event_stores_fields (event : EventIn.t) (w : World) :
  let stored :=
    DocEvent
      {| schemas.event_type := EventIn.event_type event;
         schemas.source := EventIn.source event;
         schemas.page := EventIn.page event;
         schemas.session_id := EventIn.session_id event;
         schemas.payload := EventIn.payload event |} in
  writes (log_event event w) = [(u "event", stored)]
  /\ left_world (log_event event w) = snd (be_create_document (u "event") stored w)
  /\ ended (log_event event w) =
       match fst (be_create_document (u "event") stored w) with
       | Returns event_id =>
           Returns {| ok := true; id_key := u "event_id"; id_value := event_id |}
       | Raises e => Raises e
       end.
Proof.
  unfold log_event, e_bind, e_create_document, e_ret.
  cbv [schemas.Event_init]. cbv zeta.
  destruct (be_create_document (u "event") _ w) as [[event_id | e] w1];
    cbn [ended writes left_world fst snd app]; repeat split.
Qed.

(** X4.  [save_transcript] validates the e-mail address before it
    writes: an address the validation rejects makes the endpoint raise
    with nothing written and the world untouched; without an address, or
    with one that validates, exactly one transcript is written, to
    ["transcript"], with the messages of the request in their order, the
    other fields as they came and the address as normalized. *)
Theorem save_transcript_validates_first (t : TranscriptIn.t) (w : World) :
  (forall address e,
      TranscriptIn.lead_email t = Some address ->
      be_validate_email address = Raises e ->
      save_transcript t w = Exec (Raises e) [] w)
  /\ (forall stored_address,
        (TranscriptIn.lead_email t = None /\ stored_address = None)
        \/ (exists address normalized,
               TranscriptIn.lead_email t = Some address /\
               be_validate_email address = Returns normalized /\
               stored_address = Some normalized) ->
        writes (save_transcript t w) =
          [(u "transcript",
            DocTranscript
              {| Transcript.session_id := TranscriptIn.session_id t;
                 Transcript.lead_email := stored_address;
                 Transcript.lead_phone := TranscriptIn.lead_phone t;
                 Transcript.lead_name := TranscriptIn.lead_name t;
                 Transcript.page := TranscriptIn.page t;
                 Transcript.messages := TranscriptIn.messages t |})]).
Proof.
  unfold save_transcript, e_bind, e_lift, e_create_document, e_ret, Transcript_init.
  split.
  - intros address e -> ->. reflexivity.
  - intros stored [[-> ->] | (address & normalized & -> & -> & ->)];
      cbn [ended writes left_world];
      destruct (be_create_document (u "transcript") _ w) as [[id | e] w1];
      reflexivity.
Qed.

(** X5.  Every record the endpoints hand to [create_document] goes to the
    collection named by the lower-cased class name of the record, as the
    docstring of [schemas.py] lays down: ["lead"] for a [Lead], ["event"]
    for an [Event], ["transcript"] for a [Transcript]. *)
Theorem collection_is_lowercase_class_name :
  (forall lead (w : World) c d,
      In (c, d) (writes (create_lead lead w)) -> c = lower (class_name d))
  /\ (forall event (w : World) c d,
        In (c, d) (writes (log_event event w)) -> c = lower (class_name d))
  /\ (forall t (w : World) c d,
        In (c, d) (writes (save_transcript t w)) -> c = lower (class_name d))
  /\ (forall req (w : World) c d,
        In (c, d) (writes (exec_of_run (chat (C := chat_collaborators B) req w))) ->
        c = lower (class_name d)).
Proof.
  split; [|split; [|split]].
  - intros lead w c d. rewrite create_lead_run. cbv zeta.
    destruct (fst (be_create_document (u "lead") (DocLead lead) w));
      cbn [writes In]; intros H;
      repeat (destruct H as [H | H]; [injection H as <- <-; vm_compute; reflexivity|]);
      contradiction.
  - intros event w c d.
    unfold log_event, e_bind, e_create_document, e_ret.
    destruct (be_create_document (u "event") _ w) as [[id | e] w1];
      cbn [ended writes left_world app In]; intros H;
      repeat (destruct H as [H | H]; [injection H as <- <-; vm_compute; reflexivity|]);
      contradiction.
  - intros t w c d.
    unfold save_transcript, e_bind, e_lift, e_create_document, e_ret.
    destruct (Transcript_init t) as [tr | e]; cbn [ended writes left_world In];
      [|contradiction].
    destruct (be_create_document (u "transcript") _ w) as [[id | e] w1];
      cbn [ended writes left_world app In]; intros H;
      repeat (destruct H as [H | H]; [injection H as <- <-; vm_compute; reflexivity|]);
      contradiction.
  - intros req w c d. unfold exec_of_run. cbn [writes].
    rewrite (chat_calls (C := chat_collaborators B)).
    destruct (assoc (classify (message req)) event_types);
      cbn [map In fst snd]; intros H;
      repeat (destruct H as [H | H]; [injection H as <- <-; vm_compute; reflexivity|]);
      contradiction.
Qed.

End WebhookProperties.

(* ================================================================== *)
(** * The health check *)
(* ================================================================== *)

Section HealthProperties.
Context {World : Type} {B : Backend World}.

Lemma firstn_length_le (A : Type) (n : nat) (s : list A) :
  (List.length (firstn n s) <= n)%nat.
Proof. rewrite length_firstn. apply Nat.le_min_l. Qed.

(** [test_database] is the health report of the answers of the backend. *)
Lemma test_database_report (w : World) :
  test_database w =
    health_report (be_db_is_not_none w)
      (be_getenv (u "DATABASE_URL") w) (be_getenv (u "DATABASE_NAME") w)
      (be_list_collection_names w).
Proof. reflexivity. Qed.

Lemma health_report_returned (db : bool) (url name : outcome (option pystr))
    (listing : outcome (list pystr)) (info : Info) :
  health_report db url name listing = Returns info ->
  backend info = u "✅ Running" /\ (List.length (database info) <= 89)%nat.
Proof.
  revert info. health_cases; intros info H; try discriminate H;
    apply (f_equal (fun o => match o with Returns i => i | Raises _ => info end)) in H;
    subst info; (split; [reflexivity|]); cbv [database];
    first [ apply Nat.leb_le; vm_compute; reflexivity
          | rewrite length_app;
            match goal with
            | |- (List.length (u ?p) + List.length (firstn ?n ?t) <= _)%nat =>
                pose proof (firstn_length_le n t);
                let k := eval vm_compute in (List.length (u p)) in
                change (List.length (u p)) with k; lia
            end ].
Qed.

Lemma health_report_raised (db : bool) (url name : outcome (option pystr))
    (listing : outcome (list pystr)) (e : exn) :
  health_report db url name listing = Raises e ->
  exists msg,
    e = BaseException msg /\ db = true
    /\ (url = Raises e \/ name = Raises e \/ listing = Raises e).
Proof.
  revert e. health_cases; intros e H; try discriminate H;
    injection H as <-; eexists; (split; [reflexivity|]); (split; [reflexivity|]);
    auto.
Qed.

Lemma health_report_returns (db : bool) (url name : outcome (option pystr))
    (listing : outcome (list pystr)) :
  (forall msg, url <> Raises (BaseException msg)) ->
  (forall msg, name <> Raises (BaseException msg)) ->
  (forall msg, listing <> Raises (BaseException msg)) ->
  exists info, health_report db url name listing = Returns info.
Proof.
  intros Hu Hn Hl.
  destruct (health_report db url name listing) as [info | e] eqn:E;
    [exists info; reflexivity|].
  exfalso.
  destruct (health_report_raised _ _ _ _ E) as (msg & -> & _ & [H | [H | H]]).
  - exact (Hu msg H).
  - exact (Hn msg H).
  - exact (Hl msg H).
Qed.

Lemma health_report_connected (db : bool) (url name : outcome (option pystr))
    (listing : outcome (list pystr)) (info : Info) :
  health_report db url name listing = Returns info ->
  (connection_status info = u "Connected" <->
     db = true
     /\ (exists v, url = Returns v)
     /\ (exists v, name = Returns v)
     /\ (exists names, listing = Returns names))
  /\ (connection_status info = u "Connected" ->
      forall names, listing = Returns names -> collections info = firstn 10 names)
  /\ (connection_status info <> u "Connected" ->
      connection_status info = u "Not Connected" /\ collections info = [])
  /\ (List.length (collections info) <= 10)%nat.
Proof.
  revert info. health_cases; intros info H; try discriminate H;
    apply (f_equal (fun o => match o with Returns i => i | Raises _ => info end)) in H;
    subst info; cbv [connection_status collections].
  - split; [|split; [|split]].
    + split; [intros _ | reflexivity]. repeat split; eexists; reflexivity.
    + intros _ names' [= <-]. reflexivity.
    + intros H. exfalso. apply H. reflexivity.
    + apply firstn_length_le.
  - split; [|split; [|split]].
    + split; [intros H; literal_clash | intros (_ & _ & _ & names & [=])].
    + intros H; literal_clash.
    + intros _. split; reflexivity.
    + apply Nat.le_0_l.
  - split; [|split; [|split]].
    + split; [intros H; literal_clash | intros (_ & _ & [v [=]] & _)].
    + intros H; literal_clash.
    + intros _. split; reflexivity.
    + apply Nat.le_0_l.
  - split; [|split; [|split]].
    + split; [intros H; literal_clash | intros (_ & [v [=]] & _)].
    + intros H; literal_clash.
    + intros _. split; reflexivity.
    + apply Nat.le_0_l.
  - split; [|split; [|split]].
    + split; [intros H; literal_clash | intros ([=] & _)].
    + intros H; literal_clash.
    + intros _. split; reflexivity.
    + apply Nat.le_0_l.
Qed.

(** X6.  [test_database] lets no [Exception] out: when the environment
    look-ups and the listing return or raise an [Exception], it returns
    its report.  A report always says that the backend is running, and its
    [database] line has at most 89 code points, however long the text of a
    caught exception is.  [test_database] raises only what
    [except Exception] does not catch: an exception deriving from
    [BaseException] alone ([KeyboardInterrupt], [SystemExit]), raised by
    a look-up or by the listing while the handle is there. *)
Theorem test_database_catches_exceptions (w : World) :
  (forall info,
      test_database w = Returns info ->
      backend info = u "✅ Running" /\ (List.length (database info) <= 89)%nat)
  /\ (forall e,
        test_database w = Raises e ->
        exists msg,
          e = BaseException msg /\ be_db_is_not_none w = true
          /\ (be_getenv (u "DATABASE_URL") w = Raises e
              \/ be_getenv (u "DATABASE_NAME") w = Raises e
              \/ be_list_collection_names w = Raises e))
  /\ ((forall msg, be_getenv (u "DATABASE_URL") w <> Raises (BaseException msg)) ->
      (forall msg, be_getenv (u "DATABASE_NAME") w <> Raises (BaseException msg)) ->
      (forall msg, be_list_collection_names w <> Raises (BaseException msg)) ->
      exists info, test_database w = Returns info).
Proof.
  rewrite test_database_report. split; [|split].
  - intros info H. exact (health_report_returned _ _ _ _ H).
  - intros e H. exact (health_report_raised _ _ _ _ H).
  - intros Hu Hn Hl. exact (health_report_returns _ Hu Hn Hl).
Qed.

(** X7.  [test_database] reports ["Connected"] exactly when the database
    handle is there, both environment look-ups return and the listing
    returns; it then reports the first ten names of the listing.  In every
    other case the status is ["Not Connected"] and no collection is
    reported.  More than ten collections are never reported. *)
Theorem test_database_connected (w : World) (info : Info) :
  test_database w = Returns info ->
  (connection_status info = u "Connected" <->
     be_db_is_not_none w = true
     /\ (exists url, be_getenv (u "DATABASE_URL") w = Returns url)
     /\ (exists name, be_getenv (u "DATABASE_NAME") w = Returns name)
     /\ (exists names, be_list_collection_names w = Returns names))
  /\ (connection_status info = u "Connected" ->
      forall names, be_list_collection_names w = Returns names ->
                    collections info = firstn 10 names)
  /\ (connection_status info <> u "Connected" ->
      connection_status info = u "Not Connected" /\ collections info = [])
  /\ (List.length (collections info) <= 10)%nat.
Proof.
  rewrite test_database_report. intros H.
  exact (health_report_connected _ _ _ _ H).
Qed.

(** X8.  When the listing raises an [Exception], [test_database] keeps
    what it had found before: the two variables are still reported as set
    or not set (an empty value counts as not set), the status stays ["Not
    Connected"], no collection is reported, and the [database] line is the
    warning followed by the first 50 code points of the exception text.
    When the listing raises an exception that is not an [Exception],
    [test_database] raises it and returns no report. *)
Theorem test_database_listing_fails (w : World) (url name : option pystr) (e : exn) :
  be_db_is_not_none w = true ->
  be_getenv (u "DATABASE_URL") w = Returns url ->
  be_getenv (u "DATABASE_NAME") w = Returns name ->
  be_list_collection_names w = Raises e ->
  test_database w =
    match e with
    | Exception msg =>
        Returns
          {| backend := u "✅ Running";
             database := u "⚠️ Connected but Error: " ++ firstn 50 msg;
             database_url :=
               Some (match url with
                     | Some (_ :: _) => u "✅ Set"
                     | _ => u "❌ Not Set"
                     end);
             database_name :=
               Some (match name with
                     | Some (_ :: _) => u "✅ Set"
                     | _ => u "❌ Not Set"
                     end);
             connection_status := u "Not Connected";
             collections := [] |}
    | BaseException _ => Raises e
    end.
Proof.
  intros Hd Hu Hn Hl. rewrite test_database_report.
  generalize Hd Hu Hn Hl. clear Hd Hu Hn Hl.
  generalize (be_db_is_not_none w) (be_list_collection_names w).
  intros db listing Hd Hu Hn Hl. rewrite Hd, Hu, Hn, Hl.
  destruct e as [msg | msg];
    cbv [health_report s_try s_bind s_lift s_ret
           set_database set_database_url set_database_name set_connection_status
           set_collections exn_str
           fst snd backend database database_url database_name connection_status
           collections truthy];
    destruct url as [[|c url]|]; destruct name as [[|d name]|]; reflexivity.
Qed.

End HealthProperties.

(* ================================================================== *)
(** * More on the chat endpoint *)
(* ================================================================== *)

Section ChatProperties.
Context {UD : UnicodeData} {World : Type} {C : Collaborators World}.

Lemma strip_all_space (ws : pystr) : all_space ws -> strip ws = [].
Proof.
  intros H. rewrite <- (app_nil_r ws).
  exact (strip_pad [] H (Forall_nil _)).
Qed.

(** X9.  The keyword "reschedule" never decides: it contains "schedule",
    a keyword of the book rule, which comes first.  A message whose
    normalized text contains "reschedule" is classified as book, and a
    message is classified as reschedule exactly when no book keyword
    occurs in it and "missed" or "change" does. *)
Theorem reschedule_keyword_shadowed (msg : option pystr) :
  (occurs (u "reschedule") (normalize msg) -> classify msg = u "book")
  /\ (classify msg = u "reschedule" <->
        ~ rule_matches [u "book"; u "appointment"; u "schedule"; u "demo"]
            (normalize msg)
        /\ (occurs (u "missed") (normalize msg)
            \/ occurs (u "change") (normalize msg))).
Proof.
  assert (Hsub : occurs (u "schedule") (u "reschedule"))
    by (exists (u "re"), []; vm_compute; reflexivity).
  assert (Hbook : occurs (u "reschedule") (normalize msg) ->
                  rule_matches [u "book"; u "appointment"; u "schedule"; u "demo"]
                    (normalize msg)).
  { intros H. exists (u "schedule"). split; [in_literals|].
    exact (occurs_trans Hsub H). }
  split.
  - intros H.
    apply classify_nth with (n := 0%nat)
                            (kws := [u "book"; u "appointment"; u "schedule"; u "demo"]).
    + reflexivity.
    + intros i' kws' [].
    + exact (Hbook H).
  - unfold classify.
    change intents with
      ((u "book", [u "book"; u "appointment"; u "schedule"; u "demo"])
         :: (u "reschedule", [u "reschedule"; u "missed"; u "change"])
         :: skipn 2 intents).
    cbn [detect].
    destruct (any_in [u "book"; u "appointment"; u "schedule"; u "demo"]
                (normalize msg)) eqn:Eb.
    + split; [intros H; literal_clash|].
      intros [Hn _]. apply any_in_false in Hn. congruence.
    + apply any_in_false in Eb.
      destruct (any_in [u "reschedule"; u "missed"; u "change"] (normalize msg)) eqn:Er.
      * split; [intros _ | reflexivity]. split; [exact Eb|].
        apply any_in_iff in Er. destruct Er as [k [Hk Ho]].
        simpl In in Hk. destruct Hk as [<- | [<- | [<- | []]]]; auto.
        exfalso. exact (Eb (Hbook Ho)).
      * apply any_in_false in Er. split.
        -- intros H.
           pose proof (detect_in (skipn 2 intents) (normalize msg) (u "general")) as Hin.
           rewrite H in Hin. literal_clash.
        -- intros [_ [Ho | Ho]]; exfalso; apply Er;
             [exists (u "missed") | exists (u "change")];
             (split; [in_literals | exact Ho]).
Qed.

(** X10.  A message that is [None], empty or made of white space only is
    classified as general: [chat] writes nothing, leaves the world as it
    was and returns the general reply. *)
Theorem blank_message_is_general (req : ChatRequest) (w : World) :
  (message req = None \/ exists ws, message req = Some ws /\ all_space ws) ->
  classify (message req) = u "general"
  /\ calls (chat req w) = []
  /\ world (chat req w) = w
  /\ exists r, result (chat req w) = Returns r /\ r_intent r = u "general".
Proof.
  intros Hblank.
  assert (Hn : normalize (message req) = []).
  { destruct Hblank as [-> | [ws [-> Hws]]]; [reflexivity|].
    rewrite normalize_some, (strip_all_space Hws). reflexivity. }
  assert (Hc : classify (message req) = u "general").
  { unfold classify. rewrite Hn. vm_compute. reflexivity. }
  destruct (chat_run (message req)) as (text & label & Hl & Hrun).
  rewrite (Hrun req w eq_refl). rewrite Hc in *.
  assert (A : assoc (u "general") event_types = None) by (vm_compute; reflexivity).
  rewrite A. cbn [calls world result].
  repeat split. eexists. split; [reflexivity|].
  cbn [r_intent reply_dict].
  assert (L : assoc (u "general") reply_intents = Some (u "general"))
    by (vm_compute; reflexivity).
  congruence.
Qed.

(** X11.  For an intent other than book, insurance and callback, [chat]
    cannot fail: it returns a reply, writes nothing and leaves the world
    as it was, whatever the state of the store. *)
Theorem chat_without_write (req : ChatRequest) (w : World) :
  ~ In (classify (message req)) [u "book"; u "insurance"; u "callback"] ->
  exists r, chat req w = Run (Returns r) [] w.
Proof.
  intros Hn.
  destruct (chat_run (message req)) as (text & label & _ & Hrun).
  rewrite (Hrun req w eq_refl).
  destruct (event_type_cases (message req)) as [[E _] | [[E _] | [[E _] | [_ A]]]].
  - exfalso. apply Hn. rewrite E. in_literals.
  - exfalso. apply Hn. rewrite E. in_literals.
  - exfalso. apply Hn. rewrite E. in_literals.
  - rewrite A. eexists. reflexivity.
Qed.

Lemma event_types_functional (i type : pystr) :
  In (i, type) event_types -> assoc i event_types = Some type.
Proof.
  cbv [event_types]. simpl In.
  intros [H | [H | [H | []]]]; injection H as <- <-; vm_compute; reflexivity.
Qed.

(** X12.  The time stamp of a reply is read when the reply is built,
    after the write of the branch: it is the clock of the world [chat]
    leaves, and for book, insurance and callback that world is the one the
    write left. *)
Theorem reply_timestamp_after_write (req : ChatRequest) (w : World) (r : ChatReply) :
  result (chat req w) = Returns r ->
  r_timestamp r = utcnow_isoformat (world (chat req w))
  /\ (forall type, In (classify (message req), type) event_types ->
        world (chat req w)
        = snd (db_create_document (u "event") (event_of type req) w)).
Proof.
  destruct (chat_run (message req)) as (text & label & _ & Hrun).
  rewrite (Hrun req w eq_refl).
  destruct (assoc (classify (message req)) event_types) as [type0|] eqn:A;
    cbv zeta; cbn [result world].
  - destruct (fst (db_create_document (u "event") _ w)); [|discriminate].
    intros [= <-]. split; [reflexivity|].
    intros type Hin. rewrite (event_types_functional Hin) in A.
    injection A as ->. reflexivity.
  - intros [= <-]. split; [reflexivity|].
    intros type Hin. rewrite (event_types_functional Hin) in A. discriminate A.
Qed.

End ChatProperties.

(* ================================================================== *)
(** * The further theorems at concrete requests *)
(* ================================================================== *)

Lemma create_lead_partial_failure_witness :
  exists e,
    ended (create_lead (B := backend_flaky) ann_lead []) = Raises e
    /\ map fst (writes (create_lead (B := backend_flaky) ann_lead []))
       = [u "lead"; u "event"].
Proof.
  pose proof (proj2 (create_lead_partial_failure (B := backend_flaky) ann_lead [])
                _ _ _ _ _ eq_refl eq_refl eq_refl) as H.
  rewrite H. eexists. split; reflexivity.
Defined.

Lemma create_lead_success_witness :
  exists answer,
    ended (create_lead (B := backend_up) ann_lead []) = Returns answer
    /\ id_value answer = PyStr (u "doc-1")
    /\ List.length (writes (create_lead (B := backend_up) ann_lead [])) = 2%nat.
Proof.
  assert (H : exists answer,
             ended (create_lead (B := backend_up) ann_lead []) = Returns answer)
    by (eexists; reflexivity).
  destruct H as [answer H]. exists answer. split; [exact H|].
  destruct (create_lead_success (B := backend_up) ann_lead [] H)
    as (lead_id & Hid & -> & Hw).
  split; [|rewrite Hw; reflexivity].
  cbn [id_value]. cbn in Hid. congruence.
Defined.

Lemma save_transcript_validates_first_witness :
  save_transcript (B := backend_up) (transcript_with_email (Some (u "not an address"))) []
  = Exec (Raises (Exception (u "value is not a valid email address"))) [] [].
Proof.
  apply (proj1 (save_transcript_validates_first (B := backend_up)
                  (transcript_with_email (Some (u "not an address"))) [])
           (u "not an address")).
  - reflexivity.
  - vm_compute. reflexivity.
Defined.

Lemma test_database_connected_witness :
  exists info,
    test_database (B := backend_up) [] = Returns info
    /\ connection_status info = u "Connected"
    /\ List.length twelve_names = 12%nat
    /\ List.length (collections info) = 10%nat.
Proof.
  assert (H : exists info, test_database (B := backend_up) [] = Returns info)
    by (eexists; vm_compute; reflexivity).
  destruct H as [info H]. exists info. split; [exact H|].
  destruct (test_database_connected (B := backend_up) [] H) as (Hiff & Hnames & _).
  assert (Hc : connection_status info = u "Connected").
  { apply Hiff. repeat split; eexists; reflexivity. }
  split; [exact Hc|]. split; [reflexivity|].
  rewrite (Hnames Hc twelve_names eq_refl). reflexivity.
Defined.

Lemma test_database_listing_fails_witness :
  exists info,
    test_database (B := backend_flaky) [] = Returns info
    /\ connection_status info = u "Not Connected"
    /\ database_url info = Some (u "❌ Not Set")
    /\ List.length (database info) = 74%nat.
Proof.
  eexists. split.
  - exact (test_database_listing_fails (B := backend_flaky) []
             eq_refl eq_refl eq_refl eq_refl).
  - split; [reflexivity|]. split; [reflexivity|]. vm_compute. reflexivity.
Defined.

Lemma blank_message_is_general_witness :
  all_space (UD := ascii_only) (u "   ")
  /\ classify (UD := ascii_only) (message (say "   ")) = u "general"
  /\ calls (chat (UD := ascii_only) (C := store_down) (say "   ") []) = [].
Proof.
  assert (S3 : all_space (UD := ascii_only) (u "   "))
    by (repeat (constructor; [vm_compute; reflexivity|]); constructor).
  split; [exact S3|].
  destruct (blank_message_is_general (UD := ascii_only) (C := store_down) (say "   ") []
              (or_intror (ex_intro _ (u "   ") (conj eq_refl S3))))
    as (Hc & Hcalls & _).
  split; assumption.
Defined.

Lemma chat_without_write_witness :
  ~ In (classify (UD := ascii_only) (message (say "what's your cancellation policy")))
       [u "book"; u "insurance"; u "callback"]
  /\ exists r,
       chat (UD := ascii_only) (C := store_down)
         (say "what's your cancellation policy") []
       = Run (Returns r) [] [].
Proof.
  assert (H : ~ In (classify (UD := ascii_only)
                      (message (say "what's your cancellation policy")))
                   [u "book"; u "insurance"; u "callback"]).
  { intros H. vm_compute in H.
    repeat (destruct H as [H | H]; [discriminate H|]). exact H. }
  split; [exact H|].
  exact (chat_without_write (UD := ascii_only) (C := store_down)
           (say "what's your cancellation policy") [] H).
Defined.

Lemma reply_timestamp_after_write_witness :
  exists r,
    result (chat (UD := ascii_only) (C := in_memory) (say "book") []) = Returns r
    /\ r_timestamp r
       = utcnow_isoformat (Collaborators := in_memory)
           (world (chat (UD := ascii_only) (C := in_memory) (say "book") [])).
Proof.
  assert (H : exists r, result (chat (UD := ascii_only) (C := in_memory) (say "book") [])
                        = Returns r)
    by (eexists; vm_compute; reflexivity).
  destruct H as [r H]. exists r. split; [exact H|].
  exact (proj1 (reply_timestamp_after_write (UD := ascii_only) (C := in_memory)
                  (say "book") [] H)).
Defined.

(* ================================================================== *)
(** * Keywords and the general intent *)
(* ================================================================== *)

Section Keywords.
Context {UD : UnicodeData}.

(** Every keyword of the table is a word of ASCII lower-case letters. *)
Lemma keywords_lower_case (i : pystr) (kws : list pystr) (k : pystr) :
  In (i, kws) intents -> In k kws -> forallb is_ascii_lower k = true.
Proof.
  assert (H : forallb (fun rule => forallb (forallb is_ascii_lower) (snd rule)) intents
              = true) by (vm_compute; reflexivity).
  intros Hi Hk.
  pose proof (proj1 (forallb_forall _ _) H (i, kws) Hi) as Hr. cbn [snd] in Hr.
  exact (proj1 (forallb_forall _ _) Hr k Hk).
Qed.

(** No rule carries the name general. *)
Lemma general_is_no_rule (kws : list pystr) : ~ In (u "general", kws) intents.
Proof.
  cbv [intents]. simpl In. intros H.
  repeat (destruct H as [H | H];
          [pose proof (f_equal fst H) as Hk; cbn [fst] in Hk; literal_clash|]).
  exact H.
Qed.

(** X13.  The general intent is the answer exactly when no keyword occurs
    in the normalized message.  Stripping and lower-casing never lose a
    keyword, so a message in which a keyword occurs as written is never
    classified as general. *)
Theorem general_iff_no_keyword (msg : option pystr) :
  (classify msg = u "general" <->
     forall i kws k, In (i, kws) intents -> In k kws -> ~ occurs k (normalize msg))
  /\ (forall m i kws k,
        msg = Some m -> In (i, kws) intents -> In k kws -> occurs k m ->
        classify msg <> u "general").
Proof.
  assert (Hiff : classify msg = u "general" <->
                 forall i kws k, In (i, kws) intents -> In k kws ->
                                 ~ occurs k (normalize msg)).
  { split.
    - intros Hc i kws k Hi Hk Ho. unfold classify in Hc.
      destruct (detect_first intents (normalize msg) (u "general"))
        as [(before & j & kj & after & E & _ & _ & Hd) | [Hn _]].
      + apply (@general_is_no_rule kj). rewrite E. apply in_or_app. right. left.
        congruence.
      + apply (Hn i kws Hi). exists k. split; assumption.
    - intros Hn. apply classify_general.
      intros i kws Hi [k [Hk Ho]]. exact (Hn i kws k Hi Hk Ho). }
  split; [exact Hiff|].
  intros m i kws k -> Hi Hk Ho Hc.
  apply (proj1 Hiff Hc i kws k Hi Hk).
  apply occurs_normalize; [|exact Ho].
  apply lower_word_forallb. exact (@keywords_lower_case i kws k Hi Hk).
Qed.

End Keywords.

Lemma general_iff_no_keyword_witness :
  In (u "payment", [u "pay"; u "payment"; u "billing"]) intents
  /\ occurs (u "billing") (u "  My BILLING address, billing@example.org ")
  /\ classify (UD := ascii_only) (Some (u "  My BILLING address, billing@example.org "))
     <> u "general".
Proof.
  assert (Hi : In (u "payment", [u "pay"; u "payment"; u "billing"]) intents)
    by (cbv [intents]; in_literals).
  assert (Ho : occurs (u "billing") (u "  My BILLING address, billing@example.org "))
    by (exists (u "  My BILLING address, "), (u "@example.org "); vm_compute; reflexivity).
  split; [exact Hi|]. split; [exact Ho|].
  refine (proj2 (general_iff_no_keyword (UD := ascii_only)
                   (Some (u "  My BILLING address, billing@example.org ")))
            _ _ _ (u "billing") eq_refl Hi _ Ho).
  in_literals.
Defined.

Lemma test_database_catches_exceptions_witness :
  (exists info, test_database (B := backend_flaky) [] = Returns info)
  /\ test_database (B := backend_interrupted) []
     = Raises (BaseException (u "KeyboardInterrupt")).
Proof.
  split.
  - apply (proj2 (proj2 (test_database_catches_exceptions (B := backend_flaky) []))).
    + intros msg H. discriminate H.
    + intros msg H. discriminate H.
    + intros msg H. discriminate H.
  - destruct (test_database (B := backend_interrupted) []) as [info | e] eqn:E.
    + vm_compute in E. discriminate E.
    + destruct (proj1 (proj2 (test_database_catches_exceptions
                                (B := backend_interrupted) [])) e E)
        as (msg & -> & _ & [H | [H | H]]);
        first [discriminate H | injection H as <-; reflexivity].
Defined.
